(** * The state RPC module of gossamer (dot/rpc/modules/state.go)

    A shallow embedding of the request handlers of [StateModule] and the
    properties of them that the module's description states.

    Conventions of the embedding:
    - a Go slice is [option (list A)]: [None] is the nil slice, [Some l] a
      non-nil slice (the handlers test both [len(x) > 0] and [x != nil]);
    - a Go pointer is an [option]; reading a field through [None] panics;
    - a Go call returning [(T, error)] returns a pair [T * option error];
    - a handler [func (sm) Op(r, req, res) error] is a function from the
      request pointer and the response object to the final response object
      and the returned error, in a monad that records every call made to a
      consumed interface and can panic.  The [*http.Request] argument is
      never read by any handler and is left out. *)

From Stdlib Require Import ZArith NArith List Lia.
From Stdlib Require Import Strings.String Strings.Ascii Strings.Byte.
From stdpp Require Import base gmap strings list.

Local Open Scope string_scope.
Local Open Scope Z_scope.
Local Open Scope list_scope.

(** ** Go values *)

Definition slice (A : Type) : Type := option (list A).

Definition elems {A : Type} (s : slice A) : list A :=
  match s with
  | Some l => l
  | None => []
  end.

Definition len {A : Type} (s : slice A) : Z := Z.of_nat (length (elems s)).

Definition append {A : Type} (s : slice A) (x : A) : slice A :=
  Some (elems s ++ [x]).

Definition bytes : Type := slice byte.

(** [error] values carry their message; the nil error is [None]. *)
Definition error : Type := string.

(** [common.Hash] is declared in lib/common as a 32-byte array. *)
Definition Hash : Type := list byte.

(** [uint64(x)] of a Go [int]. *)
Definition uint64 (z : Z) : Z := z mod 2 ^ 64.

(** [[]byte(s)] and [string(b)]. *)
Definition bytes_of_string (s : string) : bytes := Some (list_byte_of_string s).
Definition string_of_bytes (b : bytes) : string := string_of_list_byte (elems b).

(** An [interface{}] value as far as the handlers look at it: the nil
    interface, a value of dynamic type [[]byte], or a value of another type. *)
Inductive iface : Type :=
| INil
| IBytes (b : bytes)
| IOther.

(** ** encoding/hex *)

Definition hextable : string := "0123456789abcdef".

Definition hexdigit (n : N) : ascii :=
  match String.get (N.to_nat n) hextable with
  | Some c => c
  | None => "0"%char
  end.

Fixpoint encode (src : list byte) : string :=
  match src with
  | [] => EmptyString
  | v :: rest =>
      String (hexdigit (N.shiftr (Byte.to_N v) 4))
        (String (hexdigit (N.land (Byte.to_N v) 15)) (encode rest))
  end.

Definition EncodeToString (src : bytes) : string := encode (elems src).

(** ** Calls to the consumed interfaces, and the handler monad *)

Inductive ApiCall : Type :=
| CallGetStateRootFromBlock (bhash : Hash)
| CallEntries (root : option Hash)
| CallGetStorage (root : option Hash) (key : bytes)
| CallGetStorageByBlockHash (bhash : Hash) (key : bytes)
| CallGetMetadata (bhash : option Hash)
| CallGetRuntimeVersion (bhash : option Hash).

(** A computation yields the calls it made, in order, and its value, or
    [None] when it panicked. *)
Definition M (A : Type) : Type := list ApiCall * option A.

Definition ret {A : Type} (a : A) : M A := ([], Some a).

Definition panic {A : Type} : M A := ([], None).

Definition bind {A B : Type} (m : M A) (k : A -> M B) : M B :=
  match m with
  | (t, None) => (t, None)
  | (t, Some a) => (t ++ fst (k a), snd (k a))
  end.

Definition call {A : Type} (c : ApiCall) (a : A) : M A := ([c], Some a).

(** Reading through a pointer. *)
Definition deref {A : Type} (p : option A) : M A :=
  match p with
  | Some a => ret a
  | None => panic
  end.

Notation "'do' x <~ c1 ; c2" := (bind c1 (fun x => c2))
  (at level 10, x name, c1 at level 100, c2 at level 200).

Definition trace {A : Type} (m : M A) : list ApiCall := fst m.
Definition outcome {A : Type} (m : M A) : option A := snd m.

(** A call is a storage lookup when it reads keys or values of the store. *)
Definition is_lookup (c : ApiCall) : bool :=
  match c with
  | CallEntries _ | CallGetStorage _ _ | CallGetStorageByBlockHash _ _ => true
  | _ => false
  end.

(** ** Request and response types (state.go, lines 28-165) *)

Module StateCallRequest.
Record t : Type := { Method : string; Data : bytes; Block : option Hash }.
End StateCallRequest.

Module StateChildStorageRequest.
Record t : Type :=
  { ChildStorageKey : bytes; Key : bytes; Block : option Hash }.
End StateChildStorageRequest.

Module StateStorageKeyRequest.
Record t : Type := { Key : bytes; Block : option Hash }.
End StateStorageKeyRequest.

Module StateRuntimeMetadataQuery.
Record t : Type := { Bhash : option Hash }.
End StateRuntimeMetadataQuery.

Module StateRuntimeVersionRequest.
Record t : Type := { Bhash : option Hash }.
End StateRuntimeVersionRequest.

Module StatePairRequest.
Record t : Type := { Prefix : string; Bhash : option Hash }.
End StatePairRequest.

Module StateStorageSizeRequest.
Record t : Type := { Key : string; Bhash : option Hash }.
End StateStorageSizeRequest.

Module StateStorageHashRequest.
Record t : Type := { Key : string; Bhash : option Hash }.
End StateStorageHashRequest.

Module StateStorageRequest.
Record t : Type := { Key : string; Bhash : option Hash }.
End StateStorageRequest.

Module StateStorageQueryRangeRequest.
Record t : Type :=
  { Keys : slice (option Hash); StartBlock : option Hash; Block : option Hash }.
End StateStorageQueryRangeRequest.

Module StateCallResponse.
Record t : Type := { StateCallResponse : bytes }.
End StateCallResponse.

Definition StateKeysResponse : Type := slice bytes.

Definition StateStorageDataResponse : Type := string.

Module StateStorageHashResponse.
Record t : Type := { StorageHash : string }.
Definition zero : t := {| StorageHash := EmptyString |}.
End StateStorageHashResponse.

Module StateChildStorageResponse.
Record t : Type := { StorageHash : string }.
End StateChildStorageResponse.

Module StateChildStorageSizeResponse.
Record t : Type := { Size : Z }.
End StateChildStorageSizeResponse.

Module StateStorageSizeResponse.
Record t : Type := { StorageEntrySize : Z }.
Definition zero : t := {| StorageEntrySize := 0 |}.
End StateStorageSizeResponse.

Module StateStorageResponse.
Record t : Type := { StorageValue : string }.
Definition zero : t := {| StorageValue := EmptyString |}.
End StateStorageResponse.

(** [keys] is a [[]interface{}]; every element the handlers put in it is a
    [[]string]. *)
Module StatePairResponse.
Record t : Type := { keys : slice (list string) }.
Definition zero : t := {| keys := None |}.
End StatePairResponse.

Definition StateStorageKeysResponse : Type := slice bytes.

Module StateMetadataResponse.
Record t : Type := { Metadata : string }.
Definition zero : t := {| Metadata := EmptyString |}.
End StateMetadataResponse.

Module KeyValueOption.
Record t : Type := { StorageKey : bytes; StorageData : bytes }.
End KeyValueOption.

Module StorageChangeSetResponse.
Record t : Type := { Block : option Hash; Changes : slice KeyValueOption.t }.
Definition zero : t := {| Block := None; Changes := None |}.
End StorageChangeSetResponse.

(** [Apis] is a [[]interface{}] of two-element [[]interface{}] values, a
    string and an [int32]. *)
Module StateRuntimeVersionResponse.
Record t : Type :=
  { SpecName : string;
    ImplName : string;
    AuthoringVersion : Z;
    SpecVersion : Z;
    ImplVersion : Z;
    Apis : slice (string * Z) }.
Definition zero : t :=
  {| SpecName := EmptyString; ImplName := EmptyString; AuthoringVersion := 0; SpecVersion := 0;
     ImplVersion := 0; Apis := None |}.
End StateRuntimeVersionResponse.

(** ** Types of lib/runtime that the handlers read

    The declarations are in lib/runtime.  The fields are the ones read at
    lines 277-282 and 403-404; the items of [API] are pointers
    ([[]*runtime.API_Item], line 400). *)
Module runtime.
Record Version : Type :=
  { Spec_name : bytes;
    Impl_name : bytes;
    Authoring_version : Z;
    Spec_version : Z;
    Impl_version : Z }.
Record API_Item : Type := { Name : bytes; Ver : Z }.
Record VersionAPI : Type :=
  { RuntimeVersion : Version; API : slice (option API_Item) }.
End runtime.

(** ** The consumed interfaces

    [StorageAPI] and [CoreAPI] are declared in the package's api.go; the
    methods and their shapes are the ones the handlers call.
    [GetStateRootFromBlock] takes the pointer [req.Bhash], and is called
    only when that pointer is not nil (line 192). *)
Module StorageAPI.
Record t : Type :=
  { GetStateRootFromBlock : Hash -> option Hash * option error;
    Entries : option Hash -> gmap string bytes * option error;
    GetStorage : option Hash -> bytes -> bytes * option error;
    GetStorageByBlockHash : Hash -> bytes -> bytes * option error }.
End StorageAPI.

Module CoreAPI.
Record t : Type :=
  { GetMetadata : option Hash -> bytes * option error;
    GetRuntimeVersion :
      option Hash -> option runtime.VersionAPI * option error }.
End CoreAPI.

(** [NetworkAPI] is stored in the module and never called. *)
Definition NetworkAPI : Type := unit.

Record StateModule : Type :=
  { networkAPI : NetworkAPI;
    storageAPI : StorageAPI.t;
    coreAPI : CoreAPI.t }.

Definition NewStateModule (net : NetworkAPI) (storage : StorageAPI.t)
    (core : CoreAPI.t) : StateModule :=
  {| networkAPI := net; storageAPI := storage; coreAPI := core |}.

(** ** Functions of other packages, taken as interfaces

    lib/common and lib/scale are other packages of the repository; the
    handlers are defined over any implementation of the functions they call. *)
Class Common : Type :=
  { HexToBytes : string -> bytes * option error;
    BytesToHex : bytes -> string;
    BytesToHash : bytes -> Hash;
    Hash_String : Hash -> string }.

(** [scale.Decode(in, []byte{})]: the decoded value as an [interface{}], and
    the error. *)
Class Scale : Type :=
  { Decode : bytes -> iface * option error }.

(** The order in which a [range] statement visits a map.  Go leaves it
    unspecified; every entry is visited exactly once. *)
Class MapRange : Type :=
  { range_map : gmap string bytes -> list (string * bytes);
    range_map_perm : forall m, Permutation (range_map m) (map_to_list m) }.

(** ** The handlers *)

Section Handlers.
Context {common : Common} {scale : Scale} {maprange : MapRange}.

(** Method calls on the module's collaborators, recorded in the trace. *)
Definition storage_GetStateRootFromBlock (sm : StateModule) (bhash : Hash)
    : M (option Hash * option error) :=
  call (CallGetStateRootFromBlock bhash)
       (StorageAPI.GetStateRootFromBlock (storageAPI sm) bhash).

Definition storage_Entries (sm : StateModule) (root : option Hash)
    : M (gmap string bytes * option error) :=
  call (CallEntries root) (StorageAPI.Entries (storageAPI sm) root).

Definition storage_GetStorage (sm : StateModule) (root : option Hash)
    (key : bytes) : M (bytes * option error) :=
  call (CallGetStorage root key)
       (StorageAPI.GetStorage (storageAPI sm) root key).

Definition storage_GetStorageByBlockHash (sm : StateModule) (bhash : Hash)
    (key : bytes) : M (bytes * option error) :=
  call (CallGetStorageByBlockHash bhash key)
       (StorageAPI.GetStorageByBlockHash (storageAPI sm) bhash key).

Definition core_GetMetadata (sm : StateModule) (bhash : option Hash)
    : M (bytes * option error) :=
  call (CallGetMetadata bhash) (CoreAPI.GetMetadata (coreAPI sm) bhash).

Definition core_GetRuntimeVersion (sm : StateModule) (bhash : option Hash)
    : M (option runtime.VersionAPI * option error) :=
  call (CallGetRuntimeVersion bhash)
       (CoreAPI.GetRuntimeVersion (coreAPI sm) bhash).

(** The element appended for one pair (lines 205 and 215). *)
Definition pair_entry (k v : bytes) : list string :=
  [ "0x" ++ EncodeToString k; "0x" ++ EncodeToString v ]%string.

(** The body of the loop at lines 204-206. *)
Definition GetPairs_step (res : StatePairResponse.t) (kv : string * bytes)
    : StatePairResponse.t :=
  {| StatePairResponse.keys :=
       append (StatePairResponse.keys res)
              (pair_entry (bytes_of_string (fst kv)) (snd kv)) |}.

(** Lines 184-222. *)
Definition GetPairs (sm : StateModule) (req : option StatePairRequest.t)
    (res : StatePairResponse.t) : M (StatePairResponse.t * option error) :=
  do rq <~ deref req;
  let reqBytes := fst (HexToBytes (StatePairRequest.Prefix rq)) in
  do resolved <~ match StatePairRequest.Bhash rq with
                 | Some bhash => storage_GetStateRootFromBlock sm bhash
                 | None => ret (None, None)
                 end;
  match snd resolved with
  | Some err => ret (res, Some err)
  | None =>
      let stateRootHash := fst resolved in
      if len reqBytes <? 1 then
        do entries <~ storage_Entries sm stateRootHash;
        match snd entries with
        | Some err => ret (res, Some err)
        | None =>
            ret (fold_left GetPairs_step (range_map (fst entries)) res, None)
        end
      else
        do got <~ storage_GetStorage sm stateRootHash reqBytes;
        match snd got with
        | Some err => ret (res, Some err)
        | None =>
            match fst got with
            | Some resI =>
                ret ({| StatePairResponse.keys :=
                          append (StatePairResponse.keys res)
                                 (pair_entry reqBytes (Some resI)) |}, None)
            | None => ret ({| StatePairResponse.keys := Some [] |}, None)
            end
        end
  end.

(** Lines 225-253: the handlers without a result.  Each returns the response
    object as it leaves it. *)
Definition Call (sm : StateModule) (req : option StateCallRequest.t)
    (res : StateCallResponse.t) : M StateCallResponse.t :=
  let _ := networkAPI sm in
  let _ := storageAPI sm in
  ret res.

Definition GetChildKeys (sm : StateModule)
    (req : option StateChildStorageRequest.t) (res : StateKeysResponse)
    : M StateKeysResponse :=
  ret res.

Definition GetChildStorage (sm : StateModule)
    (req : option StateChildStorageRequest.t) (res : StateStorageDataResponse)
    : M StateStorageDataResponse :=
  ret res.

Definition GetChildStorageHash (sm : StateModule)
    (req : option StateChildStorageRequest.t)
    (res : StateChildStorageResponse.t) : M StateChildStorageResponse.t :=
  ret res.

Definition GetChildStorageSize (sm : StateModule)
    (req : option StateChildStorageRequest.t)
    (res : StateChildStorageSizeResponse.t)
    : M StateChildStorageSizeResponse.t :=
  ret res.

Definition GetKeys (sm : StateModule) (req : option StateStorageKeyRequest.t)
    (res : StateStorageKeysResponse) : M StateStorageKeysResponse :=
  ret res.

(** Lines 256-266.  [decoded.([]byte)] panics unless the dynamic type of
    [decoded] is [[]byte]. *)
Definition GetMetadata (sm : StateModule)
    (req : option StateRuntimeMetadataQuery.t) (res : StateMetadataResponse.t)
    : M (StateMetadataResponse.t * option error) :=
  do rq <~ deref req;
  do fetched <~ core_GetMetadata sm (StateRuntimeMetadataQuery.Bhash rq);
  match snd fetched with
  | Some err => ret (res, Some err)
  | None =>
      let metadata := fst fetched in
      let decoded := fst (Decode metadata) in
      let err := snd (Decode metadata) in
      match decoded with
      | IBytes b =>
          ret ({| StateMetadataResponse.Metadata := BytesToHex b |}, err)
      | INil | IOther => panic
      end
  end.

(** Lines 400-407. *)
Fixpoint convertAPIs_loop (items : list (option runtime.API_Item))
    (ret_ : slice (string * Z)) : M (slice (string * Z)) :=
  match items with
  | [] => ret ret_
  | item :: rest =>
      do it <~ deref item;
      let encStr := EncodeToString (runtime.Name it) in
      convertAPIs_loop rest (append ret_ (("0x" ++ encStr)%string, runtime.Ver it))
  end.

Definition convertAPIs (in_ : slice (option runtime.API_Item))
    : M (slice (string * Z)) :=
  convertAPIs_loop (elems in_) (Some []).

(** Lines 271-285. *)
Definition GetRuntimeVersion (sm : StateModule)
    (req : option StateRuntimeVersionRequest.t)
    (res : StateRuntimeVersionResponse.t)
    : M (StateRuntimeVersionResponse.t * option error) :=
  do rq <~ deref req;
  do got <~ core_GetRuntimeVersion sm (StateRuntimeVersionRequest.Bhash rq);
  match snd got with
  | Some err => ret (res, Some err)
  | None =>
      do rtVersion <~ deref (fst got);
      let v := runtime.RuntimeVersion rtVersion in
      do apis <~ convertAPIs (runtime.API rtVersion);
      ret ({| StateRuntimeVersionResponse.SpecName :=
                string_of_bytes (runtime.Spec_name v);
              StateRuntimeVersionResponse.ImplName :=
                string_of_bytes (runtime.Impl_name v);
              StateRuntimeVersionResponse.AuthoringVersion :=
                runtime.Authoring_version v;
              StateRuntimeVersionResponse.SpecVersion :=
                runtime.Spec_version v;
              StateRuntimeVersionResponse.ImplVersion :=
                runtime.Impl_version v;
              StateRuntimeVersionResponse.Apis := apis |}, None)
  end.

(** Lines 288-314. *)
Definition GetStorage (sm : StateModule) (req : option StateStorageRequest.t)
    (res : StateStorageResponse.t)
    : M (StateStorageResponse.t * option error) :=
  do rq <~ deref req;
  let reqBytes := fst (HexToBytes (StateStorageRequest.Key rq)) in
  do got <~ match StateStorageRequest.Bhash rq with
            | Some bhash => storage_GetStorageByBlockHash sm bhash reqBytes
            | None => storage_GetStorage sm None reqBytes
            end;
  match snd got with
  | Some err => ret (res, Some err)
  | None =>
      let item := fst got in
      if len item >? 0 then
        ret ({| StateStorageResponse.StorageValue := BytesToHex item |}, None)
      else
        ret (StateStorageResponse.zero, None)
  end.

(** Lines 319-346. *)
Definition GetStorageHash (sm : StateModule)
    (req : option StateStorageHashRequest.t)
    (res : StateStorageHashResponse.t)
    : M (StateStorageHashResponse.t * option error) :=
  do rq <~ deref req;
  let reqBytes := fst (HexToBytes (StateStorageHashRequest.Key rq)) in
  do got <~ match StateStorageHashRequest.Bhash rq with
            | Some bhash => storage_GetStorageByBlockHash sm bhash reqBytes
            | None => storage_GetStorage sm None reqBytes
            end;
  match snd got with
  | Some err => ret (res, Some err)
  | None =>
      let item := fst got in
      if len item >? 0 then
        ret ({| StateStorageHashResponse.StorageHash :=
                  Hash_String (BytesToHash item) |}, None)
      else
        ret (StateStorageHashResponse.zero, None)
  end.

(** Lines 351-378. *)
Definition GetStorageSize (sm : StateModule)
    (req : option StateStorageSizeRequest.t)
    (res : StateStorageSizeResponse.t)
    : M (StateStorageSizeResponse.t * option error) :=
  do rq <~ deref req;
  let reqBytes := fst (HexToBytes (StateStorageSizeRequest.Key rq)) in
  do got <~ match StateStorageSizeRequest.Bhash rq with
            | Some bhash => storage_GetStorageByBlockHash sm bhash reqBytes
            | None => storage_GetStorage sm None reqBytes
            end;
  match snd got with
  | Some err => ret (res, Some err)
  | None =>
      let item := fst got in
      if len item >? 0 then
        ret ({| StateStorageSizeResponse.StorageEntrySize :=
                  uint64 (len item) |}, None)
      else
        ret (StateStorageSizeResponse.zero, None)
  end.

(** Lines 381-384. *)
Definition QueryStorage (sm : StateModule)
    (req : option StateStorageQueryRangeRequest.t)
    (res : StorageChangeSetResponse.t)
    : M (StorageChangeSetResponse.t * option error) :=
  ret (res, None).

(** Lines 388-391: the request handed to [GetRuntimeVersion] is [nil]. *)
Definition SubscribeRuntimeVersion (sm : StateModule)
    (req : option StateStorageQueryRangeRequest.t)
    (res : StateRuntimeVersionResponse.t)
    : M (StateRuntimeVersionResponse.t * option error) :=
  GetRuntimeVersion sm None res.

(** Lines 396-398. *)
Definition SubscribeStorage (sm : StateModule)
    (req : option StateStorageQueryRangeRequest.t)
    (res : StorageChangeSetResponse.t)
    : M (StorageChangeSetResponse.t * option error) :=
  ret (res, None).

End Handlers.

(** ** Vocabulary of the properties *)

(** The storage read that [GetStorage], [GetStorageHash] and
    [GetStorageSize] make for a key at a block reference (lines 295-305): the
    call, and the provider's answer to it. *)
Definition read_call (bhash : option Hash) (key : bytes) : ApiCall :=
  match bhash with
  | Some h => CallGetStorageByBlockHash h key
  | None => CallGetStorage None key
  end.

Definition read_answer (sm : StateModule) (bhash : option Hash) (key : bytes)
    : bytes * option error :=
  match bhash with
  | Some h => StorageAPI.GetStorageByBlockHash (storageAPI sm) h key
  | None => StorageAPI.GetStorage (storageAPI sm) None key
  end.

(** The snapshot [GetPairs] reads at (lines 192-197), when the reference, if
    any, resolves. *)
Definition resolves_to (sm : StateModule) (bhash : option Hash)
    (root : option Hash) : Prop :=
  match bhash with
  | Some h => StorageAPI.GetStateRootFromBlock (storageAPI sm) h = (root, None)
  | None => root = None
  end.

Definition resolve_calls (bhash : option Hash) : list ApiCall :=
  match bhash with
  | Some h => [CallGetStateRootFromBlock h]
  | None => []
  end.

(** The largest Go [int], the type of a slice length. *)
Definition MaxInt : Z := 2 ^ 63 - 1.

(** ** The collaborators as the specification describes them

    lib/common, lib/scale, the storage state and the core service are other
    packages of the repository.  The definitions below follow what the
    specification says of them; they give the handlers something to run on. *)
Module Model.

(** Value of a hexadecimal digit. *)
Definition unhex (c : ascii) : option N :=
  let n := N_of_ascii c in
  if ((48 <=? n) && (n <=? 57))%N then Some (n - 48)%N
  else if ((97 <=? n) && (n <=? 102))%N then Some (n - 87)%N
  else if ((65 <=? n) && (n <=? 70))%N then Some (n - 55)%N
  else None.

Fixpoint decode_hex (s : string) : option (list byte) :=
  match s with
  | EmptyString => Some []
  | String a (String b rest) =>
      match unhex a, unhex b, decode_hex rest with
      | Some hi, Some lo, Some l =>
          match Byte.of_N (hi * 16 + lo) with
          | Some v => Some (v :: l)
          | None => None
          end
      | _, _, _ => None
      end
  | String _ EmptyString => None
  end.

(** The bytes a well-formed wire string stands for: [0x] and then pairs of
    hex digits. *)
Definition decode_wire (s : string) : option (list byte) :=
  match s with
  | String "0" (String "x" digits) => decode_hex digits
  | _ => None
  end.

(** Modelled from the spec: [common.HexToBytes] (lib/common), the decoding of
    a key from its wire hex encoding, a [0x]-prefixed hex string; a
    malformed string yields the empty (nil) byte key and an error. *)
Definition HexToBytes (s : string) : bytes * option error :=
  match decode_wire s with
  | Some l => (Some l, None)
  | None => (None, Some "malformed hex string")
  end.

(** Modelled from the spec: [common.BytesToHex] (lib/common), the wire
    encoding of bytes as a [0x]-prefixed lowercase hex string. *)
Definition BytesToHex (b : bytes) : string := ("0x" ++ EncodeToString b)%string.

(** Modelled from the spec: [common.BytesToHash] (lib/common), the content
    hash taken over the bytes of a value.  The specification names no hash
    function; this one fits the bytes into the 32 bytes of a hash, keeping
    their tail and padding with zero bytes in front. *)
Definition BytesToHash (b : bytes) : Hash :=
  let l := elems b in
  let n := length l in
  repeat "000"%byte (32 - n)%nat ++ skipn (n - 32)%nat l.

(** Modelled from the spec: [Hash.String] (lib/common), the canonical string
    form of a hash, its [0x]-prefixed lowercase hex. *)
Definition Hash_String (h : Hash) : string := ("0x" ++ encode h)%string.

(** Little-endian value of a byte string. *)
Fixpoint le_value (l : list byte) : N :=
  match l with
  | [] => 0%N
  | b :: rest => (Byte.to_N b + 256 * le_value rest)%N
  end.

(** The length prefix: a compact integer, whose two low bits of the first
    byte select a 1-, 2-, 4-byte or a longer form. *)
Definition decode_length (l : list byte) : option (N * list byte) :=
  match l with
  | [] => None
  | b0 :: rest =>
      let width : nat :=
        match N.land (Byte.to_N b0) 3 with
        | 0%N => 1%nat
        | 1%N => 2%nat
        | 2%N => 4%nat
        | _ => 0%nat
        end in
      match width with
      | O =>
          let n := N.to_nat (N.shiftr (Byte.to_N b0) 2 + 4) in
          if (length rest <? n)%nat then None
          else Some (le_value (firstn n rest), skipn n rest)
      | S more =>
          if (length rest <? more)%nat then None
          else Some (N.shiftr (le_value (b0 :: firstn more rest)) 2,
                     skipn more rest)
      end
  end.

(** Modelled from the spec: [scale.Decode] with a [[]byte] target
    (lib/scale), the length-prefixed byte-sequence decode step: a length
    prefix followed by that many bytes.  The value is of type [[]byte] also
    when the decoding fails. *)
Definition Decode (blob : bytes) : iface * option error :=
  match decode_length (elems blob) with
  | None => (IBytes None, Some "could not decode the length prefix")
  | Some (n, rest) =>
      if (N.of_nat (length rest) <? n)%N
      then (IBytes None, Some "could not decode invalid byte array")
      else (IBytes (Some (firstn (N.to_nat n) rest)), None)
  end.

(** A [range] that visits the entries in the order [map_to_list] lists them. *)
Definition maprange : MapRange :=
  {| range_map := fun m => map_to_list m;
     range_map_perm := fun m => Permutation_refl (map_to_list m) |}.

Fixpoint Hash_eqb (h1 h2 : Hash) : bool :=
  match h1, h2 with
  | [], [] => true
  | a :: r1, b :: r2 => Byte.eqb a b && Hash_eqb r1 r2
  | _, _ => false
  end.

(** Modelled from the spec: the Block Resolver and the Storage Provider of
    the specification's section 6, over one key/value store [store] that is
    the state at the latest block and at every block of [known], a list of
    block hashes with their state roots.  [resolve] fails with
    [UnknownBlock] on any other reference; [get] and [getAt] return the bytes
    stored at the key, or no bytes (nil) when the key is absent. *)
Definition UnknownBlock : error := "UnknownBlock".

Definition resolve (known : list (Hash * Hash)) (bhash : Hash)
    : option Hash * option error :=
  match find (fun p => Hash_eqb (fst p) bhash) known with
  | Some p => (Some (snd p), None)
  | None => (None, Some UnknownBlock)
  end.

Definition get (store : gmap string bytes) (key : bytes) : bytes :=
  match store !! string_of_bytes key with
  | Some v => v
  | None => None
  end.

Definition storage (known : list (Hash * Hash)) (store : gmap string bytes)
    : StorageAPI.t :=
  {| StorageAPI.GetStateRootFromBlock := resolve known;
     StorageAPI.Entries := fun _ => (store, None);
     StorageAPI.GetStorage := fun _ key => (get store key, None);
     StorageAPI.GetStorageByBlockHash := fun bhash key =>
       match snd (resolve known bhash) with
       | Some err => (None, Some err)
       | None => (get store key, None)
       end |}.

(** Modelled from the spec: the Metadata/Runtime Provider of section 6.  Its
    runtime version is the latest one whatever the block reference (section
    4.4, and the comment at line 270 of state.go). *)
Definition core (latest : runtime.VersionAPI) (metadata : bytes) : CoreAPI.t :=
  {| CoreAPI.GetMetadata := fun _ => (metadata, None);
     CoreAPI.GetRuntimeVersion := fun _ => (Some latest, None) |}.

(** Modelled from the spec: a Metadata/Runtime Provider that fails, each
    request with [RuntimeUnavailable] (section 6). *)
Definition RuntimeUnavailable : error := "RuntimeUnavailable".

Definition core_down : CoreAPI.t :=
  {| CoreAPI.GetMetadata := fun _ => (None, Some RuntimeUnavailable);
     CoreAPI.GetRuntimeVersion := fun _ => (None, Some RuntimeUnavailable) |}.

End Model.

Definition model_common : Common :=
  {| HexToBytes := Model.HexToBytes;
     BytesToHex := Model.BytesToHex;
     BytesToHash := Model.BytesToHash;
     Hash_String := Model.Hash_String |}.

Definition model_scale : Scale := {| Decode := Model.Decode |}.

(** ** A module instance to run the handlers on *)
Module Sample.

Definition block1 : Hash := [x01].
Definition root1 : Hash := [x02].
Definition block9 : Hash := [x09].

(** ["k1"] holds five bytes, ["k2"] holds a value of length zero. *)
Definition store : gmap string bytes :=
  <["k1" := Some [x01; x02; x03; x04; x05]]> (<["k2" := Some []]> ∅).

Definition latest : runtime.VersionAPI :=
  {| runtime.RuntimeVersion :=
       {| runtime.Spec_name := bytes_of_string "node";
          runtime.Impl_name := bytes_of_string "gossamer";
          runtime.Authoring_version := 1;
          runtime.Spec_version := 2;
          runtime.Impl_version := 3 |};
     runtime.API := Some [Some {| runtime.Name := Some [xdf; x6a];
                                  runtime.Ver := 1 |}] |}.

(** The three bytes 1, 2, 3 behind their length prefix; and a blob cut short. *)
Definition metadata : bytes := Some [x0c; x01; x02; x03].
Definition truncated : bytes := Some [x0c; x01].

Definition sm : StateModule :=
  NewStateModule tt (Model.storage [(block1, root1)] store)
                 (Model.core latest metadata).

Definition sm_truncated : StateModule :=
  NewStateModule tt (Model.storage [(block1, root1)] store)
                 (Model.core latest truncated).

(** A module whose providers fail on the unknown block [block9]: the
    storage provider as above, the runtime provider unavailable. *)
Definition sm_down : StateModule :=
  NewStateModule tt (Model.storage [(block1, root1)] store) Model.core_down.

End Sample.

(** ** Further vocabulary and sample providers *)

(** The entry [convertAPIs] makes of one item (lines 403-404). *)
Definition api_entry (item : runtime.API_Item) : string * Z :=
  (("0x" ++ EncodeToString (runtime.Name item))%string, runtime.Ver item).

(** The characters of the table [encoding/hex] draws from. *)
Definition hex_chars (s : string) : Prop :=
  Forall (fun c => In c (list_ascii_of_string hextable))
         (list_ascii_of_string s).

(** The first string of an entry of [StatePairResponse.keys], its key. *)
Definition entry_key (entry : list string) : string :=
  nth 0 entry EmptyString.

(** Modelled from the spec: a Storage Provider whose backend fails, each
    read with [StorageUnavailable] (section 6); block references resolve as
    in [Model.storage]. *)
Definition StorageUnavailable : error := "StorageUnavailable".

Definition storage_unavailable (known : list (Hash * Hash)) : StorageAPI.t :=
  {| StorageAPI.GetStateRootFromBlock := Model.resolve known;
     StorageAPI.Entries := fun _ => (∅, Some StorageUnavailable);
     StorageAPI.GetStorage := fun _ _ => (None, Some StorageUnavailable);
     StorageAPI.GetStorageByBlockHash := fun _ _ =>
       (None, Some StorageUnavailable) |}.

Definition sm_unavailable : StateModule :=
  NewStateModule tt
    (storage_unavailable [(Sample.block1, Sample.root1)])
    Model.core_down.

(** ** The reads with the response as the pointer it is

    In the source [res] is a pointer, and the handlers above take the object
    it points to.  The four definitions below follow the same lines with
    [res] as the pointer: an assignment through a nil [res] panics, after the
    calls made before it. *)
Module Ptr.
Section Handlers.
Context {common : Common} {maprange : MapRange}.

(** [res.f = x] and [*res = x]: the object after the assignment. *)
Definition assign {R : Type} (res : option R) (f : R -> R) : M (option R) :=
  match res with
  | Some r => ret (Some (f r))
  | None => panic
  end.

(** Lines 204-206. *)
Fixpoint range_loop (pairs : list (string * bytes))
    (res : option StatePairResponse.t) : M (option StatePairResponse.t) :=
  match pairs with
  | [] => ret res
  | kv :: rest =>
      do r <~ assign res (fun r => GetPairs_step r kv);
      range_loop rest r
  end.

(** Lines 184-222. *)
Definition GetPairs (sm : StateModule) (req : option StatePairRequest.t)
    (res : option StatePairResponse.t)
    : M (option StatePairResponse.t * option error) :=
  do rq <~ deref req;
  let reqBytes := fst (HexToBytes (StatePairRequest.Prefix rq)) in
  do resolved <~ match StatePairRequest.Bhash rq with
                 | Some bhash => storage_GetStateRootFromBlock sm bhash
                 | None => ret (None, None)
                 end;
  match snd resolved with
  | Some err => ret (res, Some err)
  | None =>
      let stateRootHash := fst resolved in
      if len reqBytes <? 1 then
        do entries <~ storage_Entries sm stateRootHash;
        match snd entries with
        | Some err => ret (res, Some err)
        | None =>
            do r <~ range_loop (range_map (fst entries)) res;
            ret (r, None)
        end
      else
        do got <~ storage_GetStorage sm stateRootHash reqBytes;
        match snd got with
        | Some err => ret (res, Some err)
        | None =>
            match fst got with
            | Some resI =>
                do r <~ assign res (fun r =>
                          {| StatePairResponse.keys :=
                               append (StatePairResponse.keys r)
                                      (pair_entry reqBytes (Some resI)) |});
                ret (r, None)
            | None =>
                do r <~ assign res (fun _ =>
                          {| StatePairResponse.keys := Some [] |});
                ret (r, None)
            end
        end
  end.

(** Lines 288-314. *)
Definition GetStorage (sm : StateModule) (req : option StateStorageRequest.t)
    (res : option StateStorageResponse.t)
    : M (option StateStorageResponse.t * option error) :=
  do rq <~ deref req;
  let reqBytes := fst (HexToBytes (StateStorageRequest.Key rq)) in
  do got <~ match StateStorageRequest.Bhash rq with
            | Some bhash => storage_GetStorageByBlockHash sm bhash reqBytes
            | None => storage_GetStorage sm None reqBytes
            end;
  match snd got with
  | Some err => ret (res, Some err)
  | None =>
      let item := fst got in
      if len item >? 0 then
        do r <~ assign res (fun _ =>
                  {| StateStorageResponse.StorageValue := BytesToHex item |});
        ret (r, None)
      else
        do r <~ assign res (fun _ => StateStorageResponse.zero);
        ret (r, None)
  end.

(** Lines 319-346. *)
Definition GetStorageHash (sm : StateModule)
    (req : option StateStorageHashRequest.t)
    (res : option StateStorageHashResponse.t)
    : M (option StateStorageHashResponse.t * option error) :=
  do rq <~ deref req;
  let reqBytes := fst (HexToBytes (StateStorageHashRequest.Key rq)) in
  do got <~ match StateStorageHashRequest.Bhash rq with
            | Some bhash => storage_GetStorageByBlockHash sm bhash reqBytes
            | None => storage_GetStorage sm None reqBytes
            end;
  match snd got with
  | Some err => ret (res, Some err)
  | None =>
      let item := fst got in
      if len item >? 0 then
        do r <~ assign res (fun _ =>
                  {| StateStorageHashResponse.StorageHash :=
                       Hash_String (BytesToHash item) |});
        ret (r, None)
      else
        do r <~ assign res (fun _ => StateStorageHashResponse.zero);
        ret (r, None)
  end.

(** Lines 351-378. *)
Definition GetStorageSize (sm : StateModule)
    (req : option StateStorageSizeRequest.t)
    (res : option StateStorageSizeResponse.t)
    : M (option StateStorageSizeResponse.t * option error) :=
  do rq <~ deref req;
  let reqBytes := fst (HexToBytes (StateStorageSizeRequest.Key rq)) in
  do got <~ match StateStorageSizeRequest.Bhash rq with
            | Some bhash => storage_GetStorageByBlockHash sm bhash reqBytes
            | None => storage_GetStorage sm None reqBytes
            end;
  match snd got with
  | Some err => ret (res, Some err)
  | None =>
      let item := fst got in
      if len item >? 0 then
        do r <~ assign res (fun _ =>
                  {| StateStorageSizeResponse.StorageEntrySize :=
                       uint64 (len item) |});
        ret (r, None)
      else
        do r <~ assign res (fun _ => StateStorageSizeResponse.zero);
        ret (r, None)
  end.

End Handlers.
End Ptr.

(** A result of a handler on an object, as the result on a pointer to it. *)
Definition through_pointer {R : Type} (m : M (R * option error))
    : M (option R * option error) :=
  (trace m, option_map (fun p => (Some (fst p), snd p)) (outcome m)).

(** * Properties *)

Section Properties.
Context {common : Common} {scale : Scale} {maprange : MapRange}.

(** ** How the handlers run *)

Lemma bind_ret {A B : Type} (a : A) (k : A -> M B) : bind (ret a) k = k a.
Proof. unfold bind, ret. simpl. destruct (k a). reflexivity. Qed.

Lemma bind_call {A B : Type} (c : ApiCall) (a : A) (k : A -> M B) :
  bind (call c a) k = (c :: fst (k a), snd (k a)).
Proof. reflexivity. Qed.

Lemma read_run (sm : StateModule) (bhash : option Hash) (key : bytes) :
  match bhash with
  | Some h => storage_GetStorageByBlockHash sm h key
  | None => storage_GetStorage sm None key
  end = call (read_call bhash key) (read_answer sm bhash key).
Proof. destruct bhash; reflexivity. Qed.

(** Each storage read makes one call to the provider, with the decoded key,
    and answers from what the provider returned. *)
Lemma GetStorage_run (sm : StateModule) (key : string) (bhash : option Hash)
    (res : StateStorageResponse.t) :
  let k := fst (HexToBytes key) in
  let got := read_answer sm bhash k in
  GetStorage sm (Some {| StateStorageRequest.Key := key;
                         StateStorageRequest.Bhash := bhash |}) res =
  ([read_call bhash k],
   Some match snd got with
        | Some err => (res, Some err)
        | None =>
            if len (fst got) >? 0
            then ({| StateStorageResponse.StorageValue :=
                       BytesToHex (fst got) |}, None)
            else (StateStorageResponse.zero, None)
        end).
Proof.
  intros k got. unfold GetStorage, deref. rewrite bind_ret. simpl.
  rewrite read_run, bind_call. fold k got.
  destruct (snd got); [reflexivity|].
  destruct (len (fst got) >? 0); reflexivity.
Qed.

Lemma GetStorageHash_run (sm : StateModule) (key : string)
    (bhash : option Hash) (res : StateStorageHashResponse.t) :
  let k := fst (HexToBytes key) in
  let got := read_answer sm bhash k in
  GetStorageHash sm (Some {| StateStorageHashRequest.Key := key;
                             StateStorageHashRequest.Bhash := bhash |}) res =
  ([read_call bhash k],
   Some match snd got with
        | Some err => (res, Some err)
        | None =>
            if len (fst got) >? 0
            then ({| StateStorageHashResponse.StorageHash :=
                       Hash_String (BytesToHash (fst got)) |}, None)
            else (StateStorageHashResponse.zero, None)
        end).
Proof.
  intros k got. unfold GetStorageHash, deref. rewrite bind_ret. simpl.
  rewrite read_run, bind_call. fold k got.
  destruct (snd got); [reflexivity|].
  destruct (len (fst got) >? 0); reflexivity.
Qed.

Lemma GetStorageSize_run (sm : StateModule) (key : string)
    (bhash : option Hash) (res : StateStorageSizeResponse.t) :
  let k := fst (HexToBytes key) in
  let got := read_answer sm bhash k in
  GetStorageSize sm (Some {| StateStorageSizeRequest.Key := key;
                             StateStorageSizeRequest.Bhash := bhash |}) res =
  ([read_call bhash k],
   Some match snd got with
        | Some err => (res, Some err)
        | None =>
            if len (fst got) >? 0
            then ({| StateStorageSizeResponse.StorageEntrySize :=
                       uint64 (len (fst got)) |}, None)
            else (StateStorageSizeResponse.zero, None)
        end).
Proof.
  intros k got. unfold GetStorageSize, deref. rewrite bind_ret. simpl.
  rewrite read_run, bind_call. fold k got.
  destruct (snd got); [reflexivity|].
  destruct (len (fst got) >? 0); reflexivity.
Qed.

Lemma len_nonneg {A : Type} (s : slice A) : 0 <= len s.
Proof. unfold len. lia. Qed.

Lemma uint64_small (z : Z) : 0 <= z <= MaxInt -> uint64 z = z.
Proof.
  unfold uint64, MaxInt. intros Hz. apply Z.mod_small. lia.
Qed.

(** [GetPairs] once the reference, if any, is resolved: the enumeration of
    the whole store for an empty prefix, the read of one key otherwise. *)
Lemma GetPairs_all (sm : StateModule) (prefix : string)
    (bhash root : option Hash) (res : StatePairResponse.t) :
  let entries := StorageAPI.Entries (storageAPI sm) root in
  resolves_to sm bhash root ->
  len (fst (HexToBytes prefix)) < 1 ->
  GetPairs sm (Some {| StatePairRequest.Prefix := prefix;
                       StatePairRequest.Bhash := bhash |}) res =
  (resolve_calls bhash ++ [CallEntries root],
   Some match snd entries with
        | Some err => (res, Some err)
        | None => (fold_left GetPairs_step (range_map (fst entries)) res, None)
        end).
Proof.
  intros entries Hroot Hlen.
  assert (Hb : (len (fst (HexToBytes prefix)) <? 1) = true)
    by (apply Z.ltb_lt; lia).
  unfold GetPairs, deref, storage_GetStateRootFromBlock, storage_Entries,
    resolves_to in *.
  rewrite bind_ret. cbn [StatePairRequest.Prefix StatePairRequest.Bhash].
  destruct bhash as [h|].
  - rewrite bind_call, Hroot. cbn [fst snd]. rewrite Hb, bind_call.
    fold entries. destruct (snd entries); reflexivity.
  - subst root. rewrite bind_ret. cbn [fst snd]. rewrite Hb, bind_call.
    fold entries. destruct (snd entries); reflexivity.
Qed.

Lemma GetPairs_exact (sm : StateModule) (prefix : string)
    (bhash root : option Hash) (res : StatePairResponse.t) :
  let k := fst (HexToBytes prefix) in
  let got := StorageAPI.GetStorage (storageAPI sm) root k in
  resolves_to sm bhash root ->
  1 <= len k ->
  GetPairs sm (Some {| StatePairRequest.Prefix := prefix;
                       StatePairRequest.Bhash := bhash |}) res =
  (resolve_calls bhash ++ [CallGetStorage root k],
   Some match snd got with
        | Some err => (res, Some err)
        | None =>
            match fst got with
            | Some resI =>
                ({| StatePairResponse.keys :=
                      append (StatePairResponse.keys res)
                             (pair_entry k (Some resI)) |}, None)
            | None => ({| StatePairResponse.keys := Some [] |}, None)
            end
        end).
Proof.
  intros k got Hroot Hlen.
  assert (Hb : (len k <? 1) = false) by (apply Z.ltb_ge; lia).
  unfold GetPairs, deref, storage_GetStateRootFromBlock, storage_GetStorage,
    resolves_to in *.
  rewrite bind_ret. cbn [StatePairRequest.Prefix StatePairRequest.Bhash].
  fold k.
  destruct bhash as [h|].
  - rewrite bind_call, Hroot. cbn [fst snd]. rewrite Hb, bind_call.
    fold got. destruct (snd got); [reflexivity|].
    destruct (fst got); reflexivity.
  - subst root. rewrite bind_ret. cbn [fst snd]. rewrite Hb, bind_call.
    fold got. destruct (snd got); [reflexivity|].
    destruct (fst got); reflexivity.
Qed.

(** The loop of [GetPairs] appends one entry per visited pair, in order. *)
Lemma GetPairs_loop (l : list (string * bytes)) (res : StatePairResponse.t) :
  elems (StatePairResponse.keys (fold_left GetPairs_step l res)) =
  elems (StatePairResponse.keys res)
  ++ map (fun kv => pair_entry (bytes_of_string (fst kv)) (snd kv)) l.
Proof.
  revert res. induction l as [|kv l IH]; intros res; simpl.
  - rewrite app_nil_r. reflexivity.
  - rewrite IH. simpl. rewrite <- app_assoc. reflexivity.
Qed.

(** ** Storage reads *)

(** C1.  When the provider returns no bytes for the key (a nil or empty
    value, and no error), at the latest state or at any block reference, each
    of [GetStorage], [GetStorageHash] and [GetStorageSize] returns no error
    and leaves the zero value of its response type, whatever the response
    object held before. *)
Theorem C1_absent_key_zero_value (sm : StateModule) (key : string)
    (bhash : option Hash) (item : bytes)
    (res1 : StateStorageResponse.t) (res2 : StateStorageHashResponse.t)
    (res3 : StateStorageSizeResponse.t) :
  read_answer sm bhash (fst (HexToBytes key)) = (item, None) ->
  len item = 0 ->
  outcome (GetStorage sm (Some {| StateStorageRequest.Key := key;
                                  StateStorageRequest.Bhash := bhash |}) res1)
    = Some ({| StateStorageResponse.StorageValue := EmptyString |}, None)
  /\ outcome (GetStorageHash sm
                (Some {| StateStorageHashRequest.Key := key;
                         StateStorageHashRequest.Bhash := bhash |}) res2)
    = Some ({| StateStorageHashResponse.StorageHash := EmptyString |}, None)
  /\ outcome (GetStorageSize sm
                (Some {| StateStorageSizeRequest.Key := key;
                         StateStorageSizeRequest.Bhash := bhash |}) res3)
    = Some ({| StateStorageSizeResponse.StorageEntrySize := 0 |}, None).
Proof.
  intros Hgot Hlen.
  rewrite GetStorage_run, GetStorageHash_run, GetStorageSize_run.
  unfold outcome. simpl. rewrite Hgot. simpl. rewrite Hlen. simpl.
  repeat split; reflexivity.
Qed.

(** C3.  When the provider returns a non-empty value [V] for the key,
    [GetStorageSize] returns [len(V)] and [GetStorageHash] returns the string
    form of [common.BytesToHash(V)]; a second call that reads the same [V],
    through any module, key, reference and response object, returns the same
    hash string. *)
Theorem C3_present_key_size_and_hash (sm sm' : StateModule)
    (key key' : string) (bhash bhash' : option Hash) (V : bytes)
    (res2 res2' : StateStorageHashResponse.t)
    (res3 : StateStorageSizeResponse.t) :
  read_answer sm bhash (fst (HexToBytes key)) = (V, None) ->
  read_answer sm' bhash' (fst (HexToBytes key')) = (V, None) ->
  0 < len V <= MaxInt ->
  outcome (GetStorageSize sm
             (Some {| StateStorageSizeRequest.Key := key;
                      StateStorageSizeRequest.Bhash := bhash |}) res3)
    = Some ({| StateStorageSizeResponse.StorageEntrySize :=
                 Z.of_nat (length (elems V)) |}, None)
  /\ outcome (GetStorageHash sm
                (Some {| StateStorageHashRequest.Key := key;
                         StateStorageHashRequest.Bhash := bhash |}) res2)
    = Some ({| StateStorageHashResponse.StorageHash :=
                 Hash_String (BytesToHash V) |}, None)
  /\ outcome (GetStorageHash sm'
                (Some {| StateStorageHashRequest.Key := key';
                         StateStorageHashRequest.Bhash := bhash' |}) res2')
    = outcome (GetStorageHash sm
                (Some {| StateStorageHashRequest.Key := key;
                         StateStorageHashRequest.Bhash := bhash |}) res2).
Proof.
  intros Hgot Hgot' Hlen.
  rewrite GetStorageSize_run, !GetStorageHash_run.
  unfold outcome. simpl. rewrite Hgot, Hgot'. simpl.
  assert (Hpos : (len V >? 0) = true) by (apply Z.gtb_lt; lia).
  rewrite Hpos, uint64_small by lia.
  repeat split; reflexivity.
Qed.

(** C5, as the code has it.  Take a key stored with a value of length zero
    (the provider returns a non-nil empty value) and an absent key (the
    provider returns nil).  [GetStorage], [GetStorageHash] and
    [GetStorageSize] answer both alike, with the zero value of the response
    and no error; an error of the provider's read they return as the error
    of the request, the response object as it was.  [GetPairs], asked for
    each key as a non-empty prefix, tells them apart: it appends the pair of
    the key and ["0x"] for the stored one and returns the empty list for the
    absent one. *)
Theorem C5_empty_value_and_absent_key (sm : StateModule)
    (keyE keyA keyX : string) (bhash bhashX root : option Hash) (eX : error)
    (res1 res1' : StateStorageResponse.t)
    (res2 res2' : StateStorageHashResponse.t)
    (res3 res3' : StateStorageSizeResponse.t)
    (res4 res4' : StatePairResponse.t) :
  let kE := fst (HexToBytes keyE) in
  let kA := fst (HexToBytes keyA) in
  let kX := fst (HexToBytes keyX) in
  (read_answer sm bhash kE = (Some [], None) ->
   read_answer sm bhash kA = (None, None) ->
   outcome (GetStorage sm (Some {| StateStorageRequest.Key := keyE;
                                   StateStorageRequest.Bhash := bhash |}) res1)
     = Some ({| StateStorageResponse.StorageValue := EmptyString |}, None)
   /\ outcome (GetStorage sm
                 (Some {| StateStorageRequest.Key := keyA;
                          StateStorageRequest.Bhash := bhash |}) res1')
     = Some ({| StateStorageResponse.StorageValue := EmptyString |}, None)
   /\ outcome (GetStorageHash sm
                 (Some {| StateStorageHashRequest.Key := keyE;
                          StateStorageHashRequest.Bhash := bhash |}) res2)
     = Some ({| StateStorageHashResponse.StorageHash := EmptyString |}, None)
   /\ outcome (GetStorageHash sm
                 (Some {| StateStorageHashRequest.Key := keyA;
                          StateStorageHashRequest.Bhash := bhash |}) res2')
     = Some ({| StateStorageHashResponse.StorageHash := EmptyString |}, None)
   /\ outcome (GetStorageSize sm
                 (Some {| StateStorageSizeRequest.Key := keyE;
                          StateStorageSizeRequest.Bhash := bhash |}) res3)
     = Some ({| StateStorageSizeResponse.StorageEntrySize := 0 |}, None)
   /\ outcome (GetStorageSize sm
                 (Some {| StateStorageSizeRequest.Key := keyA;
                          StateStorageSizeRequest.Bhash := bhash |}) res3')
     = Some ({| StateStorageSizeResponse.StorageEntrySize := 0 |}, None))
  /\ (snd (read_answer sm bhashX kX) = Some eX ->
      outcome (GetStorage sm
                 (Some {| StateStorageRequest.Key := keyX;
                          StateStorageRequest.Bhash := bhashX |}) res1)
        = Some (res1, Some eX)
      /\ outcome (GetStorageHash sm
                    (Some {| StateStorageHashRequest.Key := keyX;
                             StateStorageHashRequest.Bhash := bhashX |}) res2)
        = Some (res2, Some eX)
      /\ outcome (GetStorageSize sm
                    (Some {| StateStorageSizeRequest.Key := keyX;
                             StateStorageSizeRequest.Bhash := bhashX |}) res3)
        = Some (res3, Some eX))
  /\ (1 <= len kE ->
      resolves_to sm bhash root ->
      StorageAPI.GetStorage (storageAPI sm) root kE = (Some [], None) ->
      outcome (GetPairs sm (Some {| StatePairRequest.Prefix := keyE;
                                    StatePairRequest.Bhash := bhash |}) res4)
      = Some ({| StatePairResponse.keys :=
                   Some (elems (StatePairResponse.keys res4)
                         ++ [["0x" ++ EncodeToString kE; "0x"]%string]) |},
              None))
  /\ (1 <= len kA ->
      resolves_to sm bhash root ->
      StorageAPI.GetStorage (storageAPI sm) root kA = (None, None) ->
      outcome (GetPairs sm (Some {| StatePairRequest.Prefix := keyA;
                                    StatePairRequest.Bhash := bhash |}) res4')
      = Some ({| StatePairResponse.keys := Some [] |}, None)).
Proof.
  intros kE kA kX.
  split; [|split; [|split]].
  - intros HE HA.
    rewrite !GetStorage_run, !GetStorageHash_run, !GetStorageSize_run.
    fold kE kA. rewrite HE, HA. repeat split.
  - intros HX.
    rewrite GetStorage_run, GetStorageHash_run, GetStorageSize_run.
    fold kX. rewrite HX. repeat split.
  - intros HlE Hroot HgE.
    rewrite (GetPairs_exact sm keyE bhash root res4 Hroot HlE).
    fold kE. rewrite HgE. reflexivity.
  - intros HlA Hroot HgA.
    rewrite (GetPairs_exact sm keyA bhash root res4' Hroot HlA).
    fold kA. rewrite HgA. reflexivity.
Qed.

(** ** Enumeration of pairs *)


(** ** Block references that cannot be served *)

(** C2, as the code has it.  [GetPairs] resolves a supplied reference first
    and, when the resolver fails, returns that error without any storage
    lookup.  [GetStorage], [GetStorageHash] and [GetStorageSize] never call
    the resolver: they hand the block hash to the provider's lookup by block
    hash and return the error of that lookup.  [GetMetadata] and
    [GetRuntimeVersion] hand the reference to the runtime provider and return
    its error.  Each holds by itself, whatever the other providers do; in
    each case the call shown is the only one made and the response object is
    returned as it was. *)
Theorem C2_reference_errors_are_returned (sm : StateModule) (h : Hash)
    (prefix key : string) (e1 e2 e3 e4 : error)
    (res0 : StatePairResponse.t) (res1 : StateStorageResponse.t)
    (res2 : StateStorageHashResponse.t) (res3 : StateStorageSizeResponse.t)
    (res4 : StateMetadataResponse.t) (res5 : StateRuntimeVersionResponse.t) :
  let k := fst (HexToBytes key) in
  (snd (StorageAPI.GetStateRootFromBlock (storageAPI sm) h) = Some e1 ->
   GetPairs sm (Some {| StatePairRequest.Prefix := prefix;
                        StatePairRequest.Bhash := Some h |}) res0
     = ([CallGetStateRootFromBlock h], Some (res0, Some e1)))
  /\ (snd (StorageAPI.GetStorageByBlockHash (storageAPI sm) h k) = Some e2 ->
      GetStorage sm (Some {| StateStorageRequest.Key := key;
                             StateStorageRequest.Bhash := Some h |}) res1
        = ([CallGetStorageByBlockHash h k], Some (res1, Some e2))
      /\ GetStorageHash sm
           (Some {| StateStorageHashRequest.Key := key;
                    StateStorageHashRequest.Bhash := Some h |}) res2
        = ([CallGetStorageByBlockHash h k], Some (res2, Some e2))
      /\ GetStorageSize sm
           (Some {| StateStorageSizeRequest.Key := key;
                    StateStorageSizeRequest.Bhash := Some h |}) res3
        = ([CallGetStorageByBlockHash h k], Some (res3, Some e2)))
  /\ (snd (CoreAPI.GetMetadata (coreAPI sm) (Some h)) = Some e3 ->
      GetMetadata sm
        (Some {| StateRuntimeMetadataQuery.Bhash := Some h |}) res4
        = ([CallGetMetadata (Some h)], Some (res4, Some e3)))
  /\ (snd (CoreAPI.GetRuntimeVersion (coreAPI sm) (Some h)) = Some e4 ->
      GetRuntimeVersion sm
        (Some {| StateRuntimeVersionRequest.Bhash := Some h |}) res5
        = ([CallGetRuntimeVersion (Some h)], Some (res5, Some e4))).
Proof.
  intros k.
  split; [|split; [|split]].
  - intros H1. unfold GetPairs, deref, storage_GetStateRootFromBlock.
    rewrite bind_ret. cbn [StatePairRequest.Bhash]. rewrite bind_call.
    rewrite H1. reflexivity.
  - intros H2.
    rewrite GetStorage_run, GetStorageHash_run, GetStorageSize_run.
    fold k. cbn [read_call read_answer]. rewrite H2. repeat split.
  - intros H3. unfold GetMetadata, deref, core_GetMetadata.
    rewrite bind_ret, bind_call. cbn [StateRuntimeMetadataQuery.Bhash].
    rewrite H3. reflexivity.
  - intros H4. unfold GetRuntimeVersion, deref, core_GetRuntimeVersion.
    rewrite bind_ret, bind_call. cbn [StateRuntimeVersionRequest.Bhash].
    rewrite H4. reflexivity.
Qed.

(** ** Metadata and runtime version *)

(** C6.  [GetMetadata] asks the provider for the metadata at the given
    reference, once, and decodes the blob; with the decoded bytes [d] (the
    decoder's value is of type [[]byte], as the assertion at line 264 needs)
    it stores the hex form of [d] in the response and returns the decoder's
    error: none when the decoding succeeded, and the decoding error, as the
    error of the request, when it failed.  It does not panic. *)
Theorem C6_metadata_is_decoded (sm : StateModule) (bhash : option Hash)
    (blob d : bytes) (derr : option error) (res : StateMetadataResponse.t) :
  CoreAPI.GetMetadata (coreAPI sm) bhash = (blob, None) ->
  Decode blob = (IBytes d, derr) ->
  GetMetadata sm (Some {| StateRuntimeMetadataQuery.Bhash := bhash |}) res
    = ([CallGetMetadata bhash],
       Some ({| StateMetadataResponse.Metadata := BytesToHex d |}, derr)).
Proof.
  intros Hget Hdec.
  unfold GetMetadata, deref, core_GetMetadata.
  rewrite bind_ret, bind_call. cbn [StateRuntimeMetadataQuery.Bhash].
  rewrite Hget. cbn [fst snd]. rewrite Hdec. reflexivity.
Qed.

(** Were the decoder to return a value that is not a [[]byte], the
    assertion at line 264 would panic. *)
Lemma GetMetadata_assertion_panics (sm : StateModule) (bhash : option Hash)
    (blob : bytes) (v : iface) (res : StateMetadataResponse.t) :
  CoreAPI.GetMetadata (coreAPI sm) bhash = (blob, None) ->
  fst (Decode blob) = v ->
  (forall b, v <> IBytes b) ->
  outcome (GetMetadata sm
             (Some {| StateRuntimeMetadataQuery.Bhash := bhash |}) res) = None.
Proof.
  intros Hget Hdec Hv.
  unfold GetMetadata, deref, core_GetMetadata.
  rewrite bind_ret, bind_call. cbn [StateRuntimeMetadataQuery.Bhash].
  rewrite Hget. cbn [fst snd]. rewrite Hdec.
  destruct v as [|b|]; [reflexivity| |reflexivity].
  exfalso. exact (Hv b eq_refl).
Qed.

(** [convertAPIs] calls no provider. *)
Lemma convertAPIs_loop_trace (items : list (option runtime.API_Item))
    (acc : slice (string * Z)) :
  trace (convertAPIs_loop items acc) = [].
Proof.
  revert acc. induction items as [|item items IH]; intros acc.
  - reflexivity.
  - cbn [convertAPIs_loop]. destruct item as [it|]; [|reflexivity].
    unfold deref. rewrite bind_ret. apply IH.
Qed.

(** [GetRuntimeVersion] hands the reference of the request to the runtime
    provider, in its only call. *)
Lemma GetRuntimeVersion_forwards (sm : StateModule) (bhash : option Hash)
    (res : StateRuntimeVersionResponse.t) :
  trace (GetRuntimeVersion sm
           (Some {| StateRuntimeVersionRequest.Bhash := bhash |}) res)
  = [CallGetRuntimeVersion bhash].
Proof.
  unfold GetRuntimeVersion, deref, core_GetRuntimeVersion.
  rewrite bind_ret, bind_call. cbn [StateRuntimeVersionRequest.Bhash trace fst].
  f_equal.
  destruct (snd (CoreAPI.GetRuntimeVersion (coreAPI sm) bhash));
    [reflexivity|].
  destruct (fst (CoreAPI.GetRuntimeVersion (coreAPI sm) bhash)) as [v|];
    [|reflexivity].
  rewrite bind_ret. unfold convertAPIs.
  pose proof (convertAPIs_loop_trace (elems (runtime.API v)) (Some [])) as Ht.
  unfold trace in Ht.
  destruct (convertAPIs_loop (elems (runtime.API v)) (Some [])) as [t [a|]];
    cbn in Ht |- *; subst t; reflexivity.
Qed.



(** ** Handlers without an implementation *)

(** C8, as the code has it.  Each of the eight handlers is defined for every
    input, calls no provider, and returns the response object exactly as it
    received it, so it makes up no data; [QueryStorage] and
    [SubscribeStorage], the two that return an error value, return the nil
    error, and the other six have no result at all.  None of them reports
    that it is not implemented. *)
Theorem C8_unimplemented_handlers_leave_the_response (sm : StateModule)
    (reqCall : option StateCallRequest.t) (resCall : StateCallResponse.t)
    (reqChild : option StateChildStorageRequest.t)
    (resKeys : StateKeysResponse) (resData : StateStorageDataResponse)
    (resHash : StateChildStorageResponse.t)
    (resSize : StateChildStorageSizeResponse.t)
    (reqKeys : option StateStorageKeyRequest.t)
    (resStorageKeys : StateStorageKeysResponse)
    (reqRange : option StateStorageQueryRangeRequest.t)
    (resChanges : StorageChangeSetResponse.t) :
  Call sm reqCall resCall = ([], Some resCall)
  /\ GetChildKeys sm reqChild resKeys = ([], Some resKeys)
  /\ GetChildStorage sm reqChild resData = ([], Some resData)
  /\ GetChildStorageHash sm reqChild resHash = ([], Some resHash)
  /\ GetChildStorageSize sm reqChild resSize = ([], Some resSize)
  /\ GetKeys sm reqKeys resStorageKeys = ([], Some resStorageKeys)
  /\ QueryStorage sm reqRange resChanges = ([], Some (resChanges, None))
  /\ SubscribeStorage sm reqRange resChanges = ([], Some (resChanges, None)).
Proof. repeat split. Qed.

(** ** The runtime version subscription *)

(** [SubscribeRuntimeVersion] hands [GetRuntimeVersion] a nil request, and
    [GetRuntimeVersion] reads [req.Bhash] first: every call panics before
    the runtime provider is asked. *)
Lemma SubscribeRuntimeVersion_panics (sm : StateModule)
    (req : option StateStorageQueryRangeRequest.t)
    (res : StateRuntimeVersionResponse.t) :
  SubscribeRuntimeVersion sm req res = ([], None).
Proof. reflexivity. Qed.

End Properties.

(** ** Malformed keys *)

Lemma Model_HexToBytes_error (key : string) (e : error) :
  snd (Model.HexToBytes key) = Some e -> fst (Model.HexToBytes key) = None.
Proof.
  unfold Model.HexToBytes. destruct (Model.decode_wire key); simpl.
  - discriminate.
  - reflexivity.
Qed.

Lemma Model_HexToBytes_0x : Model.HexToBytes "0x" = (Some [], None).
Proof. reflexivity. Qed.

(** C10.  With the key decoding of the specification, a key string that is
    not valid wire hex does not fail the request.  [GetStorage],
    [GetStorageHash] and [GetStorageSize] make their one storage read with
    the empty key and answer from what the provider returns for it: its
    error if it has one, else the value found there or the zero value.
    [GetPairs] treats such a prefix exactly as the empty prefix [0x]. *)
Theorem C10_malformed_key_is_the_empty_key (sm : StateModule) (key : string)
    (bhash : option Hash) (e : error) (maprange : MapRange)
    (res0 : StatePairResponse.t) (res1 : StateStorageResponse.t)
    (res2 : StateStorageHashResponse.t) (res3 : StateStorageSizeResponse.t) :
  snd (Model.HexToBytes key) = Some e ->
  let got := read_answer sm bhash None in
  GetStorage (common := model_common) sm
    (Some {| StateStorageRequest.Key := key;
             StateStorageRequest.Bhash := bhash |}) res1
  = ([read_call bhash None],
     Some match snd got with
          | Some err => (res1, Some err)
          | None =>
              if len (fst got) >? 0
              then ({| StateStorageResponse.StorageValue :=
                         Model.BytesToHex (fst got) |}, None)
              else ({| StateStorageResponse.StorageValue := EmptyString |}, None)
          end)
  /\ GetStorageHash (common := model_common) sm
       (Some {| StateStorageHashRequest.Key := key;
                StateStorageHashRequest.Bhash := bhash |}) res2
  = ([read_call bhash None],
     Some match snd got with
          | Some err => (res2, Some err)
          | None =>
              if len (fst got) >? 0
              then ({| StateStorageHashResponse.StorageHash :=
                         Model.Hash_String (Model.BytesToHash (fst got)) |},
                    None)
              else ({| StateStorageHashResponse.StorageHash := EmptyString |}, None)
          end)
  /\ GetStorageSize (common := model_common) sm
       (Some {| StateStorageSizeRequest.Key := key;
                StateStorageSizeRequest.Bhash := bhash |}) res3
  = ([read_call bhash None],
     Some match snd got with
          | Some err => (res3, Some err)
          | None =>
              if len (fst got) >? 0
              then ({| StateStorageSizeResponse.StorageEntrySize :=
                         uint64 (len (fst got)) |}, None)
              else ({| StateStorageSizeResponse.StorageEntrySize := 0 |}, None)
          end)
  /\ GetPairs (common := model_common) sm
       (Some {| StatePairRequest.Prefix := key;
                StatePairRequest.Bhash := bhash |}) res0
  = GetPairs (common := model_common) sm
       (Some {| StatePairRequest.Prefix := "0x";
                StatePairRequest.Bhash := bhash |}) res0.
Proof.
  intros Herr got.
  pose proof (Model_HexToBytes_error key e Herr) as Hnil.
  split; [|split; [|split]].
  - rewrite GetStorage_run. cbn [HexToBytes model_common].
    rewrite Hnil. reflexivity.
  - rewrite GetStorageHash_run. cbn [HexToBytes model_common].
    rewrite Hnil. reflexivity.
  - rewrite GetStorageSize_run. cbn [HexToBytes model_common].
    rewrite Hnil. reflexivity.
  - unfold GetPairs, deref. rewrite !bind_ret.
    cbn [StatePairRequest.Prefix StatePairRequest.Bhash HexToBytes
         model_common].
    rewrite Hnil, Model_HexToBytes_0x. reflexivity.
Qed.

(** * The properties on the sample module *)

(** C1 at the absent key [0xdeadbeef], read at the known block. *)
Lemma C1_witness :
  outcome (GetStorage (common := model_common) Sample.sm
             (Some {| StateStorageRequest.Key := "0xdeadbeef";
                      StateStorageRequest.Bhash := Some Sample.block1 |})
             {| StateStorageResponse.StorageValue := "0x00" |})
    = Some ({| StateStorageResponse.StorageValue := EmptyString |}, None)
  /\ outcome (GetStorageHash (common := model_common) Sample.sm
                (Some {| StateStorageHashRequest.Key := "0xdeadbeef";
                         StateStorageHashRequest.Bhash := Some Sample.block1 |})
                {| StateStorageHashResponse.StorageHash := "0x00" |})
    = Some ({| StateStorageHashResponse.StorageHash := EmptyString |}, None)
  /\ outcome (GetStorageSize (common := model_common) Sample.sm
                (Some {| StateStorageSizeRequest.Key := "0xdeadbeef";
                         StateStorageSizeRequest.Bhash := Some Sample.block1 |})
                {| StateStorageSizeResponse.StorageEntrySize := 7 |})
    = Some ({| StateStorageSizeResponse.StorageEntrySize := 0 |}, None).
Proof.
  apply (C1_absent_key_zero_value (common := model_common) Sample.sm
           "0xdeadbeef" (Some Sample.block1) None).
  - vm_compute. reflexivity.
  - reflexivity.
Defined.

(** C3 at the key [k1], which holds five bytes: read at the latest state and
    again at the known block. *)
Lemma C3_witness :
  outcome (GetStorageSize (common := model_common) Sample.sm
             (Some {| StateStorageSizeRequest.Key := "0x6b31";
                      StateStorageSizeRequest.Bhash := None |})
             StateStorageSizeResponse.zero)
    = Some ({| StateStorageSizeResponse.StorageEntrySize := 5 |}, None)
  /\ outcome (GetStorageHash (common := model_common) Sample.sm
                (Some {| StateStorageHashRequest.Key := "0x6b31";
                         StateStorageHashRequest.Bhash := None |})
                StateStorageHashResponse.zero)
    = Some ({| StateStorageHashResponse.StorageHash :=
                 Model.Hash_String
                   (Model.BytesToHash (Some [x01; x02; x03; x04; x05])) |},
            None)
  /\ outcome (GetStorageHash (common := model_common) Sample.sm
                (Some {| StateStorageHashRequest.Key := "0x6b31";
                         StateStorageHashRequest.Bhash := Some Sample.block1 |})
                {| StateStorageHashResponse.StorageHash := "0x00" |})
    = outcome (GetStorageHash (common := model_common) Sample.sm
                (Some {| StateStorageHashRequest.Key := "0x6b31";
                         StateStorageHashRequest.Bhash := None |})
                StateStorageHashResponse.zero).
Proof.
  apply (C3_present_key_size_and_hash (common := model_common)
           Sample.sm Sample.sm "0x6b31" "0x6b31" None (Some Sample.block1)
           (Some [x01; x02; x03; x04; x05])).
  - vm_compute. reflexivity.
  - vm_compute. reflexivity.
  - unfold MaxInt. vm_compute. split; [reflexivity | discriminate].
Defined.


(** C2 at the unknown block [block9]: [GetPairs] and [GetStorage] on the
    sample module, whose runtime provider serves every reference;
    [GetMetadata] and [GetRuntimeVersion] on the module whose runtime
    provider fails. *)
Lemma C2_witness :
  GetPairs (common := model_common) (maprange := Model.maprange)
    Sample.sm
    (Some {| StatePairRequest.Prefix := "0x6b31";
             StatePairRequest.Bhash := Some Sample.block9 |})
    StatePairResponse.zero
  = ([CallGetStateRootFromBlock Sample.block9],
     Some (StatePairResponse.zero, Some Model.UnknownBlock))
  /\ GetStorage (common := model_common) Sample.sm
       (Some {| StateStorageRequest.Key := "0x6b31";
                StateStorageRequest.Bhash := Some Sample.block9 |})
       StateStorageResponse.zero
  = ([CallGetStorageByBlockHash Sample.block9 (Some ["k"%byte; "1"%byte])],
     Some (StateStorageResponse.zero, Some Model.UnknownBlock))
  /\ GetMetadata (scale := model_scale) (common := model_common)
       Sample.sm_down
       (Some {| StateRuntimeMetadataQuery.Bhash := Some Sample.block9 |})
       StateMetadataResponse.zero
  = ([CallGetMetadata (Some Sample.block9)],
     Some (StateMetadataResponse.zero, Some Model.RuntimeUnavailable))
  /\ GetRuntimeVersion Sample.sm_down
       (Some {| StateRuntimeVersionRequest.Bhash := Some Sample.block9 |})
       StateRuntimeVersionResponse.zero
  = ([CallGetRuntimeVersion (Some Sample.block9)],
     Some (StateRuntimeVersionResponse.zero, Some Model.RuntimeUnavailable)).
Proof.
  pose proof (C2_reference_errors_are_returned (common := model_common)
                (scale := model_scale) (maprange := Model.maprange)
                Sample.sm Sample.block9 "0x6b31" "0x6b31"
                Model.UnknownBlock Model.UnknownBlock
                Model.RuntimeUnavailable Model.RuntimeUnavailable
                StatePairResponse.zero StateStorageResponse.zero
                StateStorageHashResponse.zero StateStorageSizeResponse.zero
                StateMetadataResponse.zero StateRuntimeVersionResponse.zero)
    as Hup.
  pose proof (C2_reference_errors_are_returned (common := model_common)
                (scale := model_scale) (maprange := Model.maprange)
                Sample.sm_down Sample.block9 "0x6b31" "0x6b31"
                Model.UnknownBlock Model.UnknownBlock
                Model.RuntimeUnavailable Model.RuntimeUnavailable
                StatePairResponse.zero StateStorageResponse.zero
                StateStorageHashResponse.zero StateStorageSizeResponse.zero
                StateMetadataResponse.zero StateRuntimeVersionResponse.zero)
    as Hdown.
  cbv zeta in Hup, Hdown.
  destruct Hup as [H0 [H1 _]]. destruct Hdown as [_ [_ [H4 H5]]].
  split; [exact (H0 eq_refl)|]. split; [exact (proj1 (H1 eq_refl))|].
  split; [exact (H4 eq_refl) | exact (H5 eq_refl)].
Defined.

(** C5 on the sample store: [k2] holds a value of length zero, [k3] is
    absent, both read at the known block; [k1] read at the unknown block
    [block9] fails. *)
Lemma C5_witness :
  (outcome (GetStorage (common := model_common) Sample.sm
              (Some {| StateStorageRequest.Key := "0x6b32";
                       StateStorageRequest.Bhash := Some Sample.block1 |})
              {| StateStorageResponse.StorageValue := "0x00" |})
     = Some ({| StateStorageResponse.StorageValue := EmptyString |}, None)
   /\ outcome (GetStorage (common := model_common) Sample.sm
                 (Some {| StateStorageRequest.Key := "0x6b33";
                          StateStorageRequest.Bhash := Some Sample.block1 |})
                 StateStorageResponse.zero)
     = Some ({| StateStorageResponse.StorageValue := EmptyString |}, None))
  /\ outcome (GetStorage (common := model_common) Sample.sm
                (Some {| StateStorageRequest.Key := "0x6b31";
                         StateStorageRequest.Bhash := Some Sample.block9 |})
                {| StateStorageResponse.StorageValue := "0x00" |})
     = Some ({| StateStorageResponse.StorageValue := "0x00" |},
             Some Model.UnknownBlock)
  /\ outcome (GetPairs (common := model_common) (maprange := Model.maprange)
                Sample.sm
                (Some {| StatePairRequest.Prefix := "0x6b32";
                         StatePairRequest.Bhash := Some Sample.block1 |})
                StatePairResponse.zero)
     = Some ({| StatePairResponse.keys := Some [["0x6b32"; "0x"]] |}, None)
  /\ outcome (GetPairs (common := model_common) (maprange := Model.maprange)
                Sample.sm
                (Some {| StatePairRequest.Prefix := "0x6b33";
                         StatePairRequest.Bhash := Some Sample.block1 |})
                StatePairResponse.zero)
     = Some ({| StatePairResponse.keys := Some [] |}, None).
Proof.
  pose proof (C5_empty_value_and_absent_key (common := model_common)
                (maprange := Model.maprange) Sample.sm
                "0x6b32" "0x6b33" "0x6b31"
                (Some Sample.block1) (Some Sample.block9) (Some Sample.root1)
                Model.UnknownBlock
                {| StateStorageResponse.StorageValue := "0x00" |}
                StateStorageResponse.zero
                StateStorageHashResponse.zero StateStorageHashResponse.zero
                StateStorageSizeResponse.zero StateStorageSizeResponse.zero
                StatePairResponse.zero StatePairResponse.zero) as H.
  cbv zeta in H. destruct H as [Hsame [Herr [HpE HpA]]].
  split; [|split; [|split]].
  - destruct Hsame as [H1 [H1' _]].
    + vm_compute. reflexivity.
    + vm_compute. reflexivity.
    + split; [exact H1 | exact H1'].
  - destruct Herr as [H1 _].
    + vm_compute. reflexivity.
    + exact H1.
  - apply HpE.
    + vm_compute. discriminate.
    + reflexivity.
    + vm_compute. reflexivity.
  - apply HpA.
    + vm_compute. discriminate.
    + reflexivity.
    + vm_compute. reflexivity.
Defined.

(** C6 on a blob cut short: the prefix announces three bytes, one follows. *)
Lemma C6_witness :
  GetMetadata (scale := model_scale) (common := model_common)
    Sample.sm_truncated
    (Some {| StateRuntimeMetadataQuery.Bhash := None |})
    StateMetadataResponse.zero
  = ([CallGetMetadata None],
     Some ({| StateMetadataResponse.Metadata := "0x" |},
           Some "could not decode invalid byte array")).
Proof.
  apply (C6_metadata_is_decoded (scale := model_scale)
           (common := model_common) Sample.sm_truncated None Sample.truncated
           None (Some "could not decode invalid byte array")
           StateMetadataResponse.zero).
  - reflexivity.
  - vm_compute. reflexivity.
Defined.

(** The same handler on a well-formed blob. *)
Example GetMetadata_sample :
  GetMetadata (scale := model_scale) (common := model_common) Sample.sm
    (Some {| StateRuntimeMetadataQuery.Bhash := Some Sample.block1 |})
    StateMetadataResponse.zero
  = ([CallGetMetadata (Some Sample.block1)],
     Some ({| StateMetadataResponse.Metadata := "0x010203" |}, None)).
Proof. vm_compute. reflexivity. Qed.

(** The decoder of the specification always returns a [[]byte] value. *)
Lemma Model_Decode_typed (blob : bytes) :
  exists d, fst (Model.Decode blob) = IBytes d.
Proof.
  unfold Model.Decode.
  destruct (Model.decode_length (elems blob)) as [[n rest]|].
  - destruct (N.of_nat (length rest) <? n)%N; eexists; reflexivity.
  - eexists; reflexivity.
Qed.


(** C10 at the key [zz], read at the latest state: the read is made with the
    nil key, and no error comes back. *)
Lemma C10_witness :
  GetStorage (common := model_common) Sample.sm
    (Some {| StateStorageRequest.Key := "zz";
             StateStorageRequest.Bhash := None |})
    StateStorageResponse.zero
  = ([CallGetStorage None None], Some (StateStorageResponse.zero, None))
  /\ GetPairs (common := model_common) (maprange := Model.maprange) Sample.sm
       (Some {| StatePairRequest.Prefix := "zz";
                StatePairRequest.Bhash := None |})
       StatePairResponse.zero
  = GetPairs (common := model_common) (maprange := Model.maprange) Sample.sm
       (Some {| StatePairRequest.Prefix := "0x";
                StatePairRequest.Bhash := None |})
       StatePairResponse.zero.
Proof.
  pose proof (C10_malformed_key_is_the_empty_key Sample.sm "zz" None
                "malformed hex string" Model.maprange StatePairResponse.zero
                StateStorageResponse.zero StateStorageHashResponse.zero
                StateStorageSizeResponse.zero eq_refl) as H.
  cbv zeta in H. destruct H as [H1 [_ [_ H4]]].
  split; [exact H1 | exact H4].
Defined.

(** C9.  On the sample module a [GetRuntimeVersion] request without a block
    reference is answered with the latest version, after one call to the
    provider; [SubscribeRuntimeVersion] panics and calls nothing. *)
Theorem C9_subscription_panics_where_the_request_answers :
  GetRuntimeVersion Sample.sm
    (Some {| StateRuntimeVersionRequest.Bhash := None |})
    StateRuntimeVersionResponse.zero
  = ([CallGetRuntimeVersion None],
     Some ({| StateRuntimeVersionResponse.SpecName := "node";
              StateRuntimeVersionResponse.ImplName := "gossamer";
              StateRuntimeVersionResponse.AuthoringVersion := 1;
              StateRuntimeVersionResponse.SpecVersion := 2;
              StateRuntimeVersionResponse.ImplVersion := 3;
              StateRuntimeVersionResponse.Apis := Some [("0xdf6a", 1)] |},
           None))
  /\ SubscribeRuntimeVersion Sample.sm
       (Some {| StateStorageQueryRangeRequest.Keys := None;
                StateStorageQueryRangeRequest.StartBlock := None;
                StateStorageQueryRangeRequest.Block := None |})
       StateRuntimeVersionResponse.zero
     = ([], None).
Proof. split; vm_compute; reflexivity. Qed.

(** * Where the description and the code part *)

(** C2 fails for [GetStorage] and for [GetRuntimeVersion].  The resolver
    cannot map [block9].  [GetStorage] at [block9] nevertheless makes a
    storage lookup, its only call, and never asks the resolver;
    [GetRuntimeVersion] at [block9] returns the latest version and no
    error. *)
Lemma C2_counterexample :
  StorageAPI.GetStateRootFromBlock (storageAPI Sample.sm) Sample.block9
    = (None, Some Model.UnknownBlock)
  /\ trace (GetStorage (common := model_common) Sample.sm
              (Some {| StateStorageRequest.Key := "0x6b31";
                       StateStorageRequest.Bhash := Some Sample.block9 |})
              StateStorageResponse.zero)
     = [CallGetStorageByBlockHash Sample.block9 (Some ["k"%byte; "1"%byte])]
  /\ existsb is_lookup
       (trace (GetStorage (common := model_common) Sample.sm
                 (Some {| StateStorageRequest.Key := "0x6b31";
                          StateStorageRequest.Bhash := Some Sample.block9 |})
                 StateStorageResponse.zero)) = true
  /\ exists res',
       outcome (GetRuntimeVersion Sample.sm
                  (Some {| StateRuntimeVersionRequest.Bhash :=
                             Some Sample.block9 |})
                  StateRuntimeVersionResponse.zero)
       = Some (res', None).
Proof.
  split; [reflexivity|]. split; [reflexivity|]. split; [reflexivity|].
  eexists. vm_compute. reflexivity.
Qed.

(** C5 fails for [GetPairs].  In the sample store [k2] holds a value of
    length zero and [k3] is absent; asked for each as a prefix, [GetPairs]
    returns one pair for [k2] and the empty list for [k3]. *)
Lemma C5_counterexample :
  Sample.store !! "k2" = Some (Some [])
  /\ Sample.store !! "k3" = None
  /\ outcome (GetPairs (common := model_common) (maprange := Model.maprange)
                Sample.sm
                (Some {| StatePairRequest.Prefix := "0x6b32";
                         StatePairRequest.Bhash := None |})
                StatePairResponse.zero)
     <> outcome (GetPairs (common := model_common)
                   (maprange := Model.maprange) Sample.sm
                   (Some {| StatePairRequest.Prefix := "0x6b33";
                            StatePairRequest.Bhash := None |})
                   StatePairResponse.zero).
Proof.
  split; [reflexivity|]. split; [reflexivity|].
  vm_compute. discriminate.
Qed.

(** C8 fails where it asks for a result that tells "not implemented" from a
    success.  [QueryStorage] and [SubscribeStorage] return the nil error and
    the untouched zero response: the result of a successful request that
    found nothing. *)
Lemma C8_counterexample :
  ~ (exists res' e,
       outcome (QueryStorage Sample.sm
                  (Some {| StateStorageQueryRangeRequest.Keys := None;
                           StateStorageQueryRangeRequest.StartBlock := None;
                           StateStorageQueryRangeRequest.Block := None |})
                  StorageChangeSetResponse.zero)
       = Some (res', Some e))
  /\ outcome (QueryStorage Sample.sm
             (Some {| StateStorageQueryRangeRequest.Keys := None;
                      StateStorageQueryRangeRequest.StartBlock := None;
                      StateStorageQueryRangeRequest.Block := None |})
             StorageChangeSetResponse.zero)
    = Some (StorageChangeSetResponse.zero, None)
  /\ outcome (SubscribeStorage Sample.sm
                (Some {| StateStorageQueryRangeRequest.Keys := None;
                         StateStorageQueryRangeRequest.StartBlock := None;
                         StateStorageQueryRangeRequest.Block := None |})
                StorageChangeSetResponse.zero)
    = Some (StorageChangeSetResponse.zero, None).
Proof.
  split; [|split; reflexivity].
  intros [res' [e H]]. discriminate H.
Qed.

(** * Further properties of the handlers *)

Section MoreProperties.
Context {common : Common} {scale : Scale} {maprange : MapRange}.

(** ** convertAPIs and the runtime version *)

Lemma convertAPIs_loop_items (its : list runtime.API_Item)
    (acc : list (string * Z)) :
  convertAPIs_loop (map Some its) (Some acc)
  = ([], Some (Some (acc ++ map api_entry its))).
Proof.
  revert acc. induction its as [|it its IH]; intros acc.
  - cbn. rewrite app_nil_r. reflexivity.
  - cbn [map convertAPIs_loop]. unfold deref. rewrite bind_ret.
    unfold append. cbn [elems]. rewrite IH, <- app_assoc. reflexivity.
Qed.

(** X1.  When no item of the input is a nil pointer, [convertAPIs] returns a
    non-nil list with one entry per item, in the order of the input: the
    item's name as [0x] and hex digits, and its version.  It calls no
    provider. *)
Theorem X1_convertAPIs_maps_items_in_order
    (in_ : slice (option runtime.API_Item)) (its : list runtime.API_Item) :
  elems in_ = map Some its ->
  convertAPIs in_ = ([], Some (Some (map api_entry its)))
  /\ length (map api_entry its) = length (elems in_).
Proof.
  intros Hin. unfold convertAPIs. rewrite Hin, convertAPIs_loop_items.
  split; [reflexivity|]. rewrite !length_map. reflexivity.
Qed.

Lemma convertAPIs_loop_panics (items : list (option runtime.API_Item))
    (acc : slice (string * Z)) :
  outcome (convertAPIs_loop items acc) = None <-> In None items.
Proof.
  revert acc. induction items as [|item items IH]; intros acc.
  - cbn. split; [discriminate | tauto].
  - cbn [convertAPIs_loop]. destruct item as [it|].
    + unfold deref. rewrite bind_ret. rewrite IH. cbn [In].
      split; [tauto|]. intros [H|H]; [discriminate | exact H].
    + cbn. split; [auto | reflexivity].
Qed.

(** X2.  [convertAPIs] panics exactly when some item of the input is a nil
    pointer; the empty and the nil input give the empty, non-nil list. *)
Theorem X2_convertAPIs_panics_on_nil_item
    (in_ : slice (option runtime.API_Item)) :
  (outcome (convertAPIs in_) = None <-> In None (elems in_))
  /\ convertAPIs None = ([], Some (Some []))
  /\ convertAPIs (Some []) = ([], Some (Some [])).
Proof.
  split; [apply convertAPIs_loop_panics|]. split; reflexivity.
Qed.

(** X3.  When the provider returns a version and no error, and no item of
    its API list is nil, [GetRuntimeVersion] makes that one call and sets all
    six fields of the response from the version: nothing of what the
    response object held before is left. *)
Theorem X3_GetRuntimeVersion_fills_the_response (sm : StateModule)
    (bhash : option Hash) (v : runtime.VersionAPI)
    (its : list runtime.API_Item) (res : StateRuntimeVersionResponse.t) :
  CoreAPI.GetRuntimeVersion (coreAPI sm) bhash = (Some v, None) ->
  elems (runtime.API v) = map Some its ->
  GetRuntimeVersion sm
    (Some {| StateRuntimeVersionRequest.Bhash := bhash |}) res
  = ([CallGetRuntimeVersion bhash],
     Some ({| StateRuntimeVersionResponse.SpecName :=
                string_of_bytes (runtime.Spec_name (runtime.RuntimeVersion v));
              StateRuntimeVersionResponse.ImplName :=
                string_of_bytes (runtime.Impl_name (runtime.RuntimeVersion v));
              StateRuntimeVersionResponse.AuthoringVersion :=
                runtime.Authoring_version (runtime.RuntimeVersion v);
              StateRuntimeVersionResponse.SpecVersion :=
                runtime.Spec_version (runtime.RuntimeVersion v);
              StateRuntimeVersionResponse.ImplVersion :=
                runtime.Impl_version (runtime.RuntimeVersion v);
              StateRuntimeVersionResponse.Apis :=
                Some (map api_entry its) |}, None)).
Proof.
  intros Hget Hits.
  unfold GetRuntimeVersion, deref, core_GetRuntimeVersion.
  rewrite bind_ret, bind_call. cbn [StateRuntimeVersionRequest.Bhash].
  rewrite Hget. cbn [fst snd]. rewrite bind_ret.
  unfold convertAPIs. rewrite Hits, convertAPIs_loop_items.
  reflexivity.
Qed.

(** ** Storage reads *)

(** X4.  When the provider returns a non-empty value [V], [GetStorage]
    answers with [common.BytesToHex(V)] and no error, whatever the response
    object held before. *)
Theorem X4_GetStorage_returns_the_value (sm : StateModule) (key : string)
    (bhash : option Hash) (V : bytes) (res : StateStorageResponse.t) :
  read_answer sm bhash (fst (HexToBytes key)) = (V, None) ->
  0 < len V ->
  GetStorage sm (Some {| StateStorageRequest.Key := key;
                         StateStorageRequest.Bhash := bhash |}) res
  = ([read_call bhash (fst (HexToBytes key))],
     Some ({| StateStorageResponse.StorageValue := BytesToHex V |}, None)).
Proof.
  intros Hgot Hlen. rewrite GetStorage_run. cbv zeta. rewrite Hgot.
  cbn [fst snd].
  assert (Hpos : (len V >? 0) = true) by (apply Z.gtb_lt; lia).
  rewrite Hpos. reflexivity.
Qed.

(** X5.  On every read without error [GetStorageSize] answers with the
    length of what the provider returned: the branch for a missing value
    gives the same number as the conversion would. *)
Theorem X5_GetStorageSize_is_the_length (sm : StateModule) (key : string)
    (bhash : option Hash) (item : bytes) (res : StateStorageSizeResponse.t) :
  read_answer sm bhash (fst (HexToBytes key)) = (item, None) ->
  len item <= MaxInt ->
  outcome (GetStorageSize sm
             (Some {| StateStorageSizeRequest.Key := key;
                      StateStorageSizeRequest.Bhash := bhash |}) res)
  = Some ({| StateStorageSizeResponse.StorageEntrySize := len item |}, None).
Proof.
  intros Hgot Hlen. rewrite GetStorageSize_run. cbv zeta. rewrite Hgot.
  cbn [fst snd outcome].
  pose proof (len_nonneg item) as Hnn.
  destruct (len item >? 0) eqn:Hpos.
  - rewrite uint64_small by lia. reflexivity.
  - rewrite Z.gtb_ltb, Z.ltb_ge in Hpos.
    replace (len item) with 0 by lia. reflexivity.
Qed.

(** X6.  A read that the provider answers without error overwrites the
    response: the result of [GetStorage], [GetStorageHash] and
    [GetStorageSize] is the same for any two response objects handed in. *)
Theorem X6_reads_overwrite_the_response (sm : StateModule) (key : string)
    (bhash : option Hash)
    (res1 res1' : StateStorageResponse.t)
    (res2 res2' : StateStorageHashResponse.t)
    (res3 res3' : StateStorageSizeResponse.t) :
  snd (read_answer sm bhash (fst (HexToBytes key))) = None ->
  GetStorage sm (Some {| StateStorageRequest.Key := key;
                         StateStorageRequest.Bhash := bhash |}) res1
  = GetStorage sm (Some {| StateStorageRequest.Key := key;
                           StateStorageRequest.Bhash := bhash |}) res1'
  /\ GetStorageHash sm (Some {| StateStorageHashRequest.Key := key;
                                StateStorageHashRequest.Bhash := bhash |}) res2
     = GetStorageHash sm (Some {| StateStorageHashRequest.Key := key;
                                  StateStorageHashRequest.Bhash := bhash |})
         res2'
  /\ GetStorageSize sm (Some {| StateStorageSizeRequest.Key := key;
                                StateStorageSizeRequest.Bhash := bhash |}) res3
     = GetStorageSize sm (Some {| StateStorageSizeRequest.Key := key;
                                  StateStorageSizeRequest.Bhash := bhash |})
         res3'.
Proof.
  intros Hok.
  rewrite !GetStorage_run, !GetStorageHash_run, !GetStorageSize_run.
  cbv zeta. rewrite Hok. repeat split.
Qed.

(** X7.  A storage read that the provider fails, with or without a block
    reference, is returned as the error of the request after that one call,
    and the response object is returned as it was. *)
Theorem X7_read_errors_are_returned (sm : StateModule) (key : string)
    (bhash : option Hash) (e : error)
    (res1 : StateStorageResponse.t) (res2 : StateStorageHashResponse.t)
    (res3 : StateStorageSizeResponse.t) :
  let k := fst (HexToBytes key) in
  snd (read_answer sm bhash k) = Some e ->
  GetStorage sm (Some {| StateStorageRequest.Key := key;
                         StateStorageRequest.Bhash := bhash |}) res1
    = ([read_call bhash k], Some (res1, Some e))
  /\ GetStorageHash sm (Some {| StateStorageHashRequest.Key := key;
                                StateStorageHashRequest.Bhash := bhash |}) res2
    = ([read_call bhash k], Some (res2, Some e))
  /\ GetStorageSize sm (Some {| StateStorageSizeRequest.Key := key;
                                StateStorageSizeRequest.Bhash := bhash |}) res3
    = ([read_call bhash k], Some (res3, Some e)).
Proof.
  intros k Herr.
  rewrite GetStorage_run, GetStorageHash_run, GetStorageSize_run.
  cbv zeta. fold k. rewrite Herr. repeat split.
Qed.

(** ** GetPairs *)

(** X8.  With a prefix of one byte or more and the reference, if any,
    resolved, [GetPairs] reads that one key; when the provider returns a
    non-nil value [v], it appends the single pair of the key and [v], both in
    hex, to the list the response held, so that a new response object holds
    exactly this pair. *)
Theorem X8_GetPairs_exact_key_found (sm : StateModule) (prefix : string)
    (bhash root : option Hash) (v : list byte) (res : StatePairResponse.t) :
  let k := fst (HexToBytes prefix) in
  1 <= len k ->
  resolves_to sm bhash root ->
  StorageAPI.GetStorage (storageAPI sm) root k = (Some v, None) ->
  GetPairs sm (Some {| StatePairRequest.Prefix := prefix;
                       StatePairRequest.Bhash := bhash |}) res
  = (resolve_calls bhash ++ [CallGetStorage root k],
     Some ({| StatePairResponse.keys :=
                Some (elems (StatePairResponse.keys res)
                      ++ [[ "0x" ++ EncodeToString k;
                            "0x" ++ encode v ]%string]) |}, None)).
Proof.
  intros k Hlen Hroot Hgot.
  rewrite (GetPairs_exact sm prefix bhash root res Hroot Hlen).
  fold k. rewrite Hgot. reflexivity.
Qed.

(** X9.  Once the reference is resolved, an error of the provider's
    enumeration (empty prefix) is returned as the error of the request, and
    so is an error of its read (prefix of one byte or more), each by itself;
    no further call is made and the response object is returned as it was. *)
Theorem X9_GetPairs_lookup_errors_are_returned (sm : StateModule)
    (pAll pKey : string) (bhash root : option Hash) (e1 e2 : error)
    (res : StatePairResponse.t) :
  let k := fst (HexToBytes pKey) in
  (len (fst (HexToBytes pAll)) < 1 ->
   resolves_to sm bhash root ->
   snd (StorageAPI.Entries (storageAPI sm) root) = Some e1 ->
   GetPairs sm (Some {| StatePairRequest.Prefix := pAll;
                        StatePairRequest.Bhash := bhash |}) res
     = (resolve_calls bhash ++ [CallEntries root], Some (res, Some e1)))
  /\ (1 <= len k ->
      resolves_to sm bhash root ->
      snd (StorageAPI.GetStorage (storageAPI sm) root k) = Some e2 ->
      GetPairs sm (Some {| StatePairRequest.Prefix := pKey;
                           StatePairRequest.Bhash := bhash |}) res
        = (resolve_calls bhash ++ [CallGetStorage root k],
           Some (res, Some e2))).
Proof.
  intros k. split.
  - intros HlenA Hroot HeA.
    rewrite (GetPairs_all sm pAll bhash root res Hroot HlenA).
    rewrite HeA. reflexivity.
  - intros HlenK Hroot HeK.
    rewrite (GetPairs_exact sm pKey bhash root res Hroot HlenK).
    fold k. rewrite HeK. reflexivity.
Qed.

(** X10.  The calls of one [GetPairs] request: the resolver first, once, and
    only when a reference is supplied; then at most one storage lookup, the
    enumeration when the decoded prefix is empty and the read of the decoded
    prefix as key when it is not; nothing else. *)
Theorem X10_GetPairs_calls (sm : StateModule) (prefix : string)
    (bhash : option Hash) (res : StatePairResponse.t) :
  let k := fst (HexToBytes prefix) in
  let t := trace (GetPairs sm (Some {| StatePairRequest.Prefix := prefix;
                                       StatePairRequest.Bhash := bhash |}) res)
  in
  exists root : option Hash,
    t = resolve_calls bhash
    \/ (len k < 1 /\ t = resolve_calls bhash ++ [CallEntries root])
    \/ (1 <= len k /\ t = resolve_calls bhash ++ [CallGetStorage root k]).
Proof.
  intros k t. subst t.
  assert (Hres : exists root, resolves_to sm bhash root
                 \/ (exists h e, bhash = Some h /\
                       snd (StorageAPI.GetStateRootFromBlock
                              (storageAPI sm) h) = Some e)).
  { destruct bhash as [h|]; [|exists None; left; reflexivity].
    destruct (StorageAPI.GetStateRootFromBlock (storageAPI sm) h)
      as [root [e|]] eqn:Hr.
    - exists None. right. exists h, e. rewrite Hr. split; reflexivity.
    - exists root. left. exact Hr. }
  destruct Hres as [root [Hroot | [h [e [Hb He]]]]]; exists root.
  - destruct (Z.lt_ge_cases (len k) 1) as [Hlt|Hge].
    + right; left. split; [exact Hlt|].
      rewrite (GetPairs_all sm prefix bhash root res Hroot Hlt). reflexivity.
    + right; right. split; [exact Hge|].
      rewrite (GetPairs_exact sm prefix bhash root res Hroot Hge).
      reflexivity.
  - left. subst bhash.
    unfold GetPairs, deref, storage_GetStateRootFromBlock.
    rewrite bind_ret. cbn [StatePairRequest.Bhash]. rewrite bind_call.
    rewrite He. reflexivity.
Qed.

(** *** Panics of the reads, with the response as a pointer *)

Lemma Ptr_GetStorage_run (sm : StateModule) (key : string)
    (bhash : option Hash) (res : option StateStorageResponse.t) :
  let k := fst (HexToBytes key) in
  let got := read_answer sm bhash k in
  Ptr.GetStorage sm (Some {| StateStorageRequest.Key := key;
                             StateStorageRequest.Bhash := bhash |}) res =
  ([read_call bhash k],
   match snd got, res with
   | Some err, _ => Some (res, Some err)
   | None, None => None
   | None, Some _ =>
       Some (Some (if len (fst got) >? 0
                   then {| StateStorageResponse.StorageValue :=
                             BytesToHex (fst got) |}
                   else StateStorageResponse.zero), None)
   end).
Proof.
  intros k got. unfold Ptr.GetStorage, deref. rewrite bind_ret.
  cbn [StateStorageRequest.Key StateStorageRequest.Bhash].
  rewrite read_run, bind_call. fold k got.
  destruct (snd got); [destruct res; reflexivity|].
  destruct (len (fst got) >? 0); destruct res; reflexivity.
Qed.

Lemma Ptr_GetStorageHash_run (sm : StateModule) (key : string)
    (bhash : option Hash) (res : option StateStorageHashResponse.t) :
  let k := fst (HexToBytes key) in
  let got := read_answer sm bhash k in
  Ptr.GetStorageHash sm (Some {| StateStorageHashRequest.Key := key;
                                 StateStorageHashRequest.Bhash := bhash |})
    res =
  ([read_call bhash k],
   match snd got, res with
   | Some err, _ => Some (res, Some err)
   | None, None => None
   | None, Some _ =>
       Some (Some (if len (fst got) >? 0
                   then {| StateStorageHashResponse.StorageHash :=
                             Hash_String (BytesToHash (fst got)) |}
                   else StateStorageHashResponse.zero), None)
   end).
Proof.
  intros k got. unfold Ptr.GetStorageHash, deref. rewrite bind_ret.
  cbn [StateStorageHashRequest.Key StateStorageHashRequest.Bhash].
  rewrite read_run, bind_call. fold k got.
  destruct (snd got); [destruct res; reflexivity|].
  destruct (len (fst got) >? 0); destruct res; reflexivity.
Qed.

Lemma Ptr_GetStorageSize_run (sm : StateModule) (key : string)
    (bhash : option Hash) (res : option StateStorageSizeResponse.t) :
  let k := fst (HexToBytes key) in
  let got := read_answer sm bhash k in
  Ptr.GetStorageSize sm (Some {| StateStorageSizeRequest.Key := key;
                                 StateStorageSizeRequest.Bhash := bhash |})
    res =
  ([read_call bhash k],
   match snd got, res with
   | Some err, _ => Some (res, Some err)
   | None, None => None
   | None, Some _ =>
       Some (Some (if len (fst got) >? 0
                   then {| StateStorageSizeResponse.StorageEntrySize :=
                             uint64 (len (fst got)) |}
                   else StateStorageSizeResponse.zero), None)
   end).
Proof.
  intros k got. unfold Ptr.GetStorageSize, deref. rewrite bind_ret.
  cbn [StateStorageSizeRequest.Key StateStorageSizeRequest.Bhash].
  rewrite read_run, bind_call. fold k got.
  destruct (snd got); [destruct res; reflexivity|].
  destruct (len (fst got) >? 0); destruct res; reflexivity.
Qed.

Lemma Ptr_range_loop_run (l : list (string * bytes))
    (res : option StatePairResponse.t) :
  Ptr.range_loop l res =
  ([], match res, l with
       | Some r, _ => Some (Some (fold_left GetPairs_step l r))
       | None, [] => Some None
       | None, _ :: _ => None
       end).
Proof.
  destruct res as [r|].
  - revert r. induction l as [|kv l IH]; intros r; [reflexivity|].
    cbn [Ptr.range_loop Ptr.assign fold_left]. rewrite bind_ret. apply IH.
  - destruct l; reflexivity.
Qed.

Lemma Ptr_GetPairs_unresolved (sm : StateModule) (prefix : string) (h : Hash)
    (e : error) (res : option StatePairResponse.t) :
  snd (StorageAPI.GetStateRootFromBlock (storageAPI sm) h) = Some e ->
  Ptr.GetPairs sm (Some {| StatePairRequest.Prefix := prefix;
                           StatePairRequest.Bhash := Some h |}) res
  = ([CallGetStateRootFromBlock h], Some (res, Some e)).
Proof.
  intros He. unfold Ptr.GetPairs, deref, storage_GetStateRootFromBlock.
  rewrite bind_ret. cbn [StatePairRequest.Bhash]. rewrite bind_call.
  rewrite He. reflexivity.
Qed.

Lemma Ptr_GetPairs_all (sm : StateModule) (prefix : string)
    (bhash root : option Hash) (res : option StatePairResponse.t) :
  let entries := StorageAPI.Entries (storageAPI sm) root in
  resolves_to sm bhash root ->
  len (fst (HexToBytes prefix)) < 1 ->
  Ptr.GetPairs sm (Some {| StatePairRequest.Prefix := prefix;
                           StatePairRequest.Bhash := bhash |}) res =
  (resolve_calls bhash ++ [CallEntries root],
   match snd entries, res, range_map (fst entries) with
   | Some err, _, _ => Some (res, Some err)
   | None, Some r, l => Some (Some (fold_left GetPairs_step l r), None)
   | None, None, [] => Some (None, None)
   | None, None, _ :: _ => None
   end).
Proof.
  intros entries Hroot Hlen.
  assert (Hb : (len (fst (HexToBytes prefix)) <? 1) = true)
    by (apply Z.ltb_lt; lia).
  unfold Ptr.GetPairs, deref, storage_GetStateRootFromBlock, storage_Entries,
    resolves_to in *.
  rewrite bind_ret. cbn [StatePairRequest.Prefix StatePairRequest.Bhash].
  destruct bhash as [h|].
  - rewrite bind_call, Hroot. cbn [fst snd]. rewrite Hb, bind_call.
    fold entries. destruct (snd entries); [reflexivity|].
    rewrite Ptr_range_loop_run.
    destruct res; [reflexivity|].
    destruct (range_map (fst entries)); reflexivity.
  - subst root. rewrite bind_ret. cbn [fst snd]. rewrite Hb, bind_call.
    fold entries. destruct (snd entries); [reflexivity|].
    rewrite Ptr_range_loop_run.
    destruct res; [reflexivity|].
    destruct (range_map (fst entries)); reflexivity.
Qed.

Lemma Ptr_GetPairs_exact (sm : StateModule) (prefix : string)
    (bhash root : option Hash) (res : option StatePairResponse.t) :
  let k := fst (HexToBytes prefix) in
  let got := StorageAPI.GetStorage (storageAPI sm) root k in
  resolves_to sm bhash root ->
  1 <= len k ->
  Ptr.GetPairs sm (Some {| StatePairRequest.Prefix := prefix;
                           StatePairRequest.Bhash := bhash |}) res =
  (resolve_calls bhash ++ [CallGetStorage root k],
   match snd got, res with
   | Some err, _ => Some (res, Some err)
   | None, None => None
   | None, Some r =>
       Some (Some match fst got with
                  | Some resI =>
                      {| StatePairResponse.keys :=
                           append (StatePairResponse.keys r)
                                  (pair_entry k (Some resI)) |}
                  | None => {| StatePairResponse.keys := Some [] |}
                  end, None)
   end).
Proof.
  intros k got Hroot Hlen.
  assert (Hb : (len k <? 1) = false) by (apply Z.ltb_ge; lia).
  unfold Ptr.GetPairs, deref, storage_GetStateRootFromBlock,
    storage_GetStorage, resolves_to in *.
  rewrite bind_ret. cbn [StatePairRequest.Prefix StatePairRequest.Bhash].
  fold k.
  destruct bhash as [h|].
  - rewrite bind_call, Hroot. cbn [fst snd]. rewrite Hb, bind_call.
    fold got. destruct (snd got); [reflexivity|].
    destruct (fst got); destruct res; reflexivity.
  - subst root. rewrite bind_ret. cbn [fst snd]. rewrite Hb, bind_call.
    fold got. destruct (snd got); [reflexivity|].
    destruct (fst got); destruct res; reflexivity.
Qed.

(** The reference either resolves to one root or fails at the resolver. *)
Lemma resolves_or_fails (sm : StateModule) (bhash : option Hash) :
  (exists root, resolves_to sm bhash root)
  \/ (exists h e, bhash = Some h
        /\ snd (StorageAPI.GetStateRootFromBlock (storageAPI sm) h) = Some e).
Proof.
  destruct bhash as [h|]; [|left; exists None; reflexivity].
  destruct (StorageAPI.GetStateRootFromBlock (storageAPI sm) h)
    as [root [e|]] eqn:Hr.
  - right. exists h, e. rewrite Hr. split; reflexivity.
  - left. exists root. exact Hr.
Qed.

Lemma resolves_to_unique (sm : StateModule) (bhash root root' : option Hash) :
  resolves_to sm bhash root -> resolves_to sm bhash root' -> root = root'.
Proof.
  unfold resolves_to. destruct bhash as [h|]; intros H H'; congruence.
Qed.

(** On a response pointer that is not nil the handlers on pointers do what
    the handlers on objects do. *)
Lemma Ptr_agrees_on_objects (sm : StateModule)
    (req1 : option StateStorageRequest.t) (res1 : StateStorageResponse.t)
    (req2 : option StateStorageHashRequest.t)
    (res2 : StateStorageHashResponse.t)
    (req3 : option StateStorageSizeRequest.t)
    (res3 : StateStorageSizeResponse.t)
    (req0 : option StatePairRequest.t) (res0 : StatePairResponse.t) :
  Ptr.GetStorage sm req1 (Some res1)
    = through_pointer (GetStorage sm req1 res1)
  /\ Ptr.GetStorageHash sm req2 (Some res2)
    = through_pointer (GetStorageHash sm req2 res2)
  /\ Ptr.GetStorageSize sm req3 (Some res3)
    = through_pointer (GetStorageSize sm req3 res3)
  /\ Ptr.GetPairs sm req0 (Some res0)
    = through_pointer (GetPairs sm req0 res0).
Proof.
  split; [|split; [|split]].
  - destruct req1 as [[key bhash]|]; [|reflexivity].
    rewrite Ptr_GetStorage_run, GetStorage_run. unfold through_pointer.
    cbn [trace outcome fst snd option_map].
    destruct (snd (read_answer _ _ _)); [reflexivity|].
    destruct (len _ >? 0); reflexivity.
  - destruct req2 as [[key bhash]|]; [|reflexivity].
    rewrite Ptr_GetStorageHash_run, GetStorageHash_run.
    unfold through_pointer. cbn [trace outcome fst snd option_map].
    destruct (snd (read_answer _ _ _)); [reflexivity|].
    destruct (len _ >? 0); reflexivity.
  - destruct req3 as [[key bhash]|]; [|reflexivity].
    rewrite Ptr_GetStorageSize_run, GetStorageSize_run.
    unfold through_pointer. cbn [trace outcome fst snd option_map].
    destruct (snd (read_answer _ _ _)); [reflexivity|].
    destruct (len _ >? 0); reflexivity.
  - destruct req0 as [[prefix bhash]|]; [|reflexivity].
    destruct (resolves_or_fails sm bhash) as [[root Hroot]|[h [e [-> He]]]].
    + destruct (Z.lt_ge_cases (len (fst (HexToBytes prefix))) 1) as [Hlt|Hge].
      * rewrite (Ptr_GetPairs_all sm prefix bhash root _ Hroot Hlt).
        rewrite (GetPairs_all sm prefix bhash root _ Hroot Hlt).
        unfold through_pointer. cbn [trace outcome fst snd option_map].
        destruct (snd (StorageAPI.Entries _ _)); reflexivity.
      * rewrite (Ptr_GetPairs_exact sm prefix bhash root _ Hroot Hge).
        rewrite (GetPairs_exact sm prefix bhash root _ Hroot Hge).
        unfold through_pointer. cbn [trace outcome fst snd option_map].
        destruct (snd (StorageAPI.GetStorage _ _ _)); [reflexivity|].
        destruct (fst (StorageAPI.GetStorage _ _ _)); reflexivity.
    + rewrite (Ptr_GetPairs_unresolved sm prefix h e _ He).
      unfold GetPairs, deref, storage_GetStateRootFromBlock.
      rewrite bind_ret. cbn [StatePairRequest.Bhash]. rewrite bind_call.
      rewrite He. reflexivity.
Qed.

(** X11.  With the response as the pointer it is in the source:
    [GetStorage], [GetStorageHash] and [GetStorageSize] panic exactly when
    the request pointer is nil, or the response pointer is nil and the
    provider's read returns no error, for then they assign through [res];
    a failed read is returned also with a nil response.  [GetPairs] panics
    exactly when the request pointer is nil, or the response pointer is nil,
    the reference resolves and the lookup returns no error, unless the
    lookup is the enumeration of an empty map, whose loop assigns nothing. *)
Theorem X11_reads_panic_on_nil_request_or_response (sm : StateModule)
    (req1 : option StateStorageRequest.t)
    (res1 : option StateStorageResponse.t)
    (req2 : option StateStorageHashRequest.t)
    (res2 : option StateStorageHashResponse.t)
    (req3 : option StateStorageSizeRequest.t)
    (res3 : option StateStorageSizeResponse.t)
    (req0 : option StatePairRequest.t)
    (res0 : option StatePairResponse.t) :
  (outcome (Ptr.GetStorage sm req1 res1) = None <->
   req1 = None
   \/ (res1 = None
       /\ exists key bhash,
            req1 = Some {| StateStorageRequest.Key := key;
                           StateStorageRequest.Bhash := bhash |}
            /\ snd (read_answer sm bhash (fst (HexToBytes key))) = None))
  /\ (outcome (Ptr.GetStorageHash sm req2 res2) = None <->
      req2 = None
      \/ (res2 = None
          /\ exists key bhash,
               req2 = Some {| StateStorageHashRequest.Key := key;
                              StateStorageHashRequest.Bhash := bhash |}
               /\ snd (read_answer sm bhash (fst (HexToBytes key))) = None))
  /\ (outcome (Ptr.GetStorageSize sm req3 res3) = None <->
      req3 = None
      \/ (res3 = None
          /\ exists key bhash,
               req3 = Some {| StateStorageSizeRequest.Key := key;
                              StateStorageSizeRequest.Bhash := bhash |}
               /\ snd (read_answer sm bhash (fst (HexToBytes key))) = None))
  /\ (outcome (Ptr.GetPairs sm req0 res0) = None <->
      req0 = None
      \/ (res0 = None
          /\ exists prefix bhash root,
               req0 = Some {| StatePairRequest.Prefix := prefix;
                              StatePairRequest.Bhash := bhash |}
               /\ resolves_to sm bhash root
               /\ ((len (fst (HexToBytes prefix)) < 1
                    /\ snd (StorageAPI.Entries (storageAPI sm) root) = None
                    /\ range_map
                         (fst (StorageAPI.Entries (storageAPI sm) root))
                       <> [])
                   \/ (1 <= len (fst (HexToBytes prefix))
                       /\ snd (StorageAPI.GetStorage (storageAPI sm) root
                                 (fst (HexToBytes prefix))) = None)))).
Proof.
  split; [|split; [|split]].
  - destruct req1 as [[key bhash]|]; [|split; [left|]; reflexivity].
    rewrite Ptr_GetStorage_run. cbn [outcome snd]. split.
    + intros H. right.
      destruct (snd (read_answer sm bhash (fst (HexToBytes key)))) eqn:Hs;
        [discriminate|].
      destruct res1; [discriminate|].
      split; [reflexivity|]. exists key, bhash. split; [reflexivity|exact Hs].
    + intros [H|[-> [key' [bhash' [Heq Hs]]]]]; [discriminate|].
      injection Heq as -> ->. rewrite Hs. reflexivity.
  - destruct req2 as [[key bhash]|]; [|split; [left|]; reflexivity].
    rewrite Ptr_GetStorageHash_run. cbn [outcome snd]. split.
    + intros H. right.
      destruct (snd (read_answer sm bhash (fst (HexToBytes key)))) eqn:Hs;
        [discriminate|].
      destruct res2; [discriminate|].
      split; [reflexivity|]. exists key, bhash. split; [reflexivity|exact Hs].
    + intros [H|[-> [key' [bhash' [Heq Hs]]]]]; [discriminate|].
      injection Heq as -> ->. rewrite Hs. reflexivity.
  - destruct req3 as [[key bhash]|]; [|split; [left|]; reflexivity].
    rewrite Ptr_GetStorageSize_run. cbn [outcome snd]. split.
    + intros H. right.
      destruct (snd (read_answer sm bhash (fst (HexToBytes key)))) eqn:Hs;
        [discriminate|].
      destruct res3; [discriminate|].
      split; [reflexivity|]. exists key, bhash. split; [reflexivity|exact Hs].
    + intros [H|[-> [key' [bhash' [Heq Hs]]]]]; [discriminate|].
      injection Heq as -> ->. rewrite Hs. reflexivity.
  - destruct req0 as [[prefix bhash]|]; [|split; [left|]; reflexivity].
    destruct (resolves_or_fails sm bhash) as [[root Hroot]|[h [e [-> He]]]].
    + destruct (Z.lt_ge_cases (len (fst (HexToBytes prefix))) 1) as [Hlt|Hge].
      * rewrite (Ptr_GetPairs_all sm prefix bhash root _ Hroot Hlt).
        cbn [outcome snd]. split.
        -- intros H. right.
           destruct (snd (StorageAPI.Entries (storageAPI sm) root)) eqn:Hs;
             [discriminate|].
           destruct res0; [discriminate|].
           destruct (range_map (fst (StorageAPI.Entries (storageAPI sm) root)))
             eqn:Hl; [discriminate|].
           split; [reflexivity|]. exists prefix, bhash, root.
           split; [reflexivity|]. split; [exact Hroot|]. left.
           split; [exact Hlt|]. split; [exact Hs|]. rewrite Hl. discriminate.
        -- intros [H|[-> [p' [b' [root' [Heq [Hroot' Hcase]]]]]]];
             [discriminate|].
           injection Heq as <- <-.
           rewrite <- (resolves_to_unique sm bhash root root' Hroot Hroot')
             in Hcase.
           destruct Hcase as [[_ [Hs Hl]]|[Hge' _]]; [|lia].
           rewrite Hs.
           destruct (range_map (fst (StorageAPI.Entries (storageAPI sm) root)));
             [contradiction|reflexivity].
      * rewrite (Ptr_GetPairs_exact sm prefix bhash root _ Hroot Hge).
        cbn [outcome snd]. split.
        -- intros H. right.
           destruct (snd (StorageAPI.GetStorage (storageAPI sm) root
                            (fst (HexToBytes prefix)))) eqn:Hs;
             [discriminate|].
           destruct res0; [discriminate|].
           split; [reflexivity|]. exists prefix, bhash, root.
           split; [reflexivity|]. split; [exact Hroot|]. right.
           split; [exact Hge|exact Hs].
        -- intros [H|[-> [p' [b' [root' [Heq [Hroot' Hcase]]]]]]];
             [discriminate|].
           injection Heq as <- <-.
           rewrite <- (resolves_to_unique sm bhash root root' Hroot Hroot')
             in Hcase.
           destruct Hcase as [[Hlt' _]|[_ Hs]]; [lia|].
           rewrite Hs. reflexivity.
    + rewrite (Ptr_GetPairs_unresolved sm prefix h e _ He).
      cbn [outcome snd]. split; [discriminate|].
      intros [H|[_ [p' [b' [root' [Heq [Hroot' _]]]]]]]; [discriminate|].
      injection Heq as <- <-. unfold resolves_to in Hroot'.
      rewrite Hroot' in He. discriminate.
Qed.

(** X12.  Without a block reference and with a key of one byte or more,
    [GetPairs] and [GetStorage] make the same single call to the provider,
    the read of the key at the latest state.  With a reference they part:
    [GetPairs] asks the resolver first, [GetStorage] reads by block hash. *)
Theorem X12_GetPairs_and_GetStorage_read_alike (sm : StateModule)
    (key : string) (h : Hash) (res0 : StatePairResponse.t)
    (res1 : StateStorageResponse.t) :
  let k := fst (HexToBytes key) in
  1 <= len k ->
  trace (GetPairs sm (Some {| StatePairRequest.Prefix := key;
                              StatePairRequest.Bhash := None |}) res0)
    = [CallGetStorage None k]
  /\ trace (GetStorage sm (Some {| StateStorageRequest.Key := key;
                                   StateStorageRequest.Bhash := None |}) res1)
    = [CallGetStorage None k]
  /\ hd_error (trace (GetPairs sm
                        (Some {| StatePairRequest.Prefix := key;
                                 StatePairRequest.Bhash := Some h |}) res0))
    = Some (CallGetStateRootFromBlock h)
  /\ trace (GetStorage sm (Some {| StateStorageRequest.Key := key;
                                   StateStorageRequest.Bhash := Some h |}) res1)
    = [CallGetStorageByBlockHash h k].
Proof.
  intros k Hlen. split; [|split; [|split]].
  - rewrite (GetPairs_exact sm key None None res0 eq_refl Hlen). reflexivity.
  - rewrite GetStorage_run. reflexivity.
  - unfold GetPairs, deref, storage_GetStateRootFromBlock.
    rewrite bind_ret. cbn [StatePairRequest.Bhash]. rewrite bind_call.
    reflexivity.
  - rewrite GetStorage_run. reflexivity.
Qed.

(** ** The hex strings of the responses *)

Lemma hexdigit_in_table (n : N) : In (hexdigit n) (list_ascii_of_string hextable).
Proof.
  unfold hexdigit. generalize (N.to_nat n). intros m.
  do 16 (destruct m as [|m]; [vm_compute; tauto|]).
  vm_compute. tauto.
Qed.

Lemma encode_length (l : list byte) :
  String.length (encode l) = (2 * length l)%nat.
Proof.
  induction l as [|v l IH]; [reflexivity|].
  cbn [encode String.length length]. rewrite IH. lia.
Qed.

Lemma encode_hex_chars (l : list byte) : hex_chars (encode l).
Proof.
  unfold hex_chars. induction l as [|v l IH]; [constructor|].
  cbn [encode list_ascii_of_string].
  constructor; [apply hexdigit_in_table|].
  constructor; [apply hexdigit_in_table|exact IH].
Qed.

(** The two digits of a byte give the byte back. *)
Lemma unhex_hexdigit (v : byte) :
  exists hi lo,
    Model.unhex (hexdigit (N.shiftr (Byte.to_N v) 4)) = Some hi
    /\ Model.unhex (hexdigit (N.land (Byte.to_N v) 15)) = Some lo
    /\ Byte.of_N (hi * 16 + lo) = Some v.
Proof.
  destruct v; vm_compute; do 2 eexists; repeat split; reflexivity.
Qed.

Lemma decode_hex_encode (l : list byte) : Model.decode_hex (encode l) = Some l.
Proof.
  induction l as [|v l IH]; [reflexivity|].
  cbn [encode Model.decode_hex].
  destruct (unhex_hexdigit v) as [hi [lo [Hhi [Hlo Hv]]]].
  rewrite Hhi, Hlo, IH, Hv. reflexivity.
Qed.

Lemma encode_inj (l1 l2 : list byte) : encode l1 = encode l2 -> l1 = l2.
Proof.
  intros Heq. apply (f_equal Model.decode_hex) in Heq.
  rewrite !decode_hex_encode in Heq. congruence.
Qed.

(** X13.  The entry that [GetPairs] appends for a key and a value (lines 205
    and 215) is a list of two strings, each [0x] followed by two characters
    per byte, all of them from [0123456789abcdef]; two entries are equal
    exactly when their keys hold the same bytes and their values hold the
    same bytes, so a nil and an empty value both read ["0x"]. *)
Theorem X13_pair_entry_is_faithful_hex (k v k' v' : bytes) :
  (exists hk hv : string,
     pair_entry k v = [("0x" ++ hk)%string; ("0x" ++ hv)%string]
     /\ String.length hk = (2 * length (elems k))%nat
     /\ String.length hv = (2 * length (elems v))%nat
     /\ hex_chars hk /\ hex_chars hv)
  /\ (pair_entry k v = pair_entry k' v'
      <-> elems k = elems k' /\ elems v = elems v')
  /\ pair_entry k None = pair_entry k (Some []).
Proof.
  unfold pair_entry, EncodeToString. split; [|split; [|reflexivity]].
  - exists (encode (elems k)), (encode (elems v)).
    split; [reflexivity|].
    split; [apply encode_length|]. split; [apply encode_length|].
    split; apply encode_hex_chars.
  - split.
    + intros Heq. injection Heq as Hk Hv.
      split; apply encode_inj; assumption.
    + intros [-> ->]. reflexivity.
Qed.

Lemma NoDup_range_keys (m : gmap string bytes) :
  List.NoDup (map fst (range_map m)).
Proof.
  apply (Permutation_NoDup (l := map fst (map_to_list m))).
  - apply Permutation_map. symmetry. apply range_map_perm.
  - apply NoDup_ListNoDup. exact (NoDup_fst_map_to_list m).
Qed.

Lemma key_string_inj (k1 k2 : string) :
  ("0x" ++ EncodeToString (bytes_of_string k1))%string
  = ("0x" ++ EncodeToString (bytes_of_string k2))%string ->
  k1 = k2.
Proof.
  unfold EncodeToString, bytes_of_string. cbn [elems String.append].
  intros Heq. injection Heq as Heq. apply encode_inj in Heq.
  apply (f_equal string_of_list_byte) in Heq.
  rewrite !string_of_list_byte_of_string in Heq. exact Heq.
Qed.

(** X14.  The enumeration of [GetPairs] into a new response object returns
    as many entries as the provider's map has pairs, each entry a list of two
    strings, and no two entries with the same key string. *)
Theorem X14_GetPairs_enumeration_has_distinct_keys (sm : StateModule)
    (prefix : string) (bhash root : option Hash) (m : gmap string bytes) :
  len (fst (HexToBytes prefix)) < 1 ->
  resolves_to sm bhash root ->
  StorageAPI.Entries (storageAPI sm) root = (m, None) ->
  exists res' : StatePairResponse.t,
    outcome (GetPairs sm (Some {| StatePairRequest.Prefix := prefix;
                                  StatePairRequest.Bhash := bhash |})
               StatePairResponse.zero)
      = Some (res', None)
    /\ length (elems (StatePairResponse.keys res')) = size m
    /\ Forall (fun entry => length entry = 2%nat)
              (elems (StatePairResponse.keys res'))
    /\ List.NoDup (map entry_key (elems (StatePairResponse.keys res'))).
Proof.
  intros Hlen Hroot Hent.
  exists (fold_left GetPairs_step (range_map m) StatePairResponse.zero).
  rewrite (GetPairs_all sm prefix bhash root _ Hroot Hlen), Hent.
  split; [reflexivity|]. rewrite GetPairs_loop. cbn [elems app
    StatePairResponse.keys StatePairResponse.zero].
  split; [|split].
  - rewrite length_map, (Permutation_length (range_map_perm m)).
    apply length_map_to_list.
  - apply List.Forall_forall. intros entry Hin. apply in_map_iff in Hin.
    destruct Hin as [kv [<- _]]. reflexivity.
  - rewrite map_map. unfold entry_key, pair_entry. cbn [nth].
    rewrite <- (map_map fst
      (fun s => ("0x" ++ EncodeToString (bytes_of_string s))%string)).
    apply Finite.Injective_map_NoDup; [|apply NoDup_range_keys].
    intros k1 k2. apply key_string_inj.
Qed.

End MoreProperties.

(** * The further properties on the sample modules *)

Lemma X1_witness :
  convertAPIs (runtime.API Sample.latest) = ([], Some (Some [("0xdf6a", 1)])).
Proof.
  exact (proj1 (X1_convertAPIs_maps_items_in_order
                  (runtime.API Sample.latest)
                  [{| runtime.Name := Some [xdf; x6a]; runtime.Ver := 1 |}]
                  eq_refl)).
Defined.

Lemma X3_witness :
  GetRuntimeVersion Sample.sm
    (Some {| StateRuntimeVersionRequest.Bhash := None |})
    {| StateRuntimeVersionResponse.SpecName := "old";
       StateRuntimeVersionResponse.ImplName := "old";
       StateRuntimeVersionResponse.AuthoringVersion := 9;
       StateRuntimeVersionResponse.SpecVersion := 9;
       StateRuntimeVersionResponse.ImplVersion := 9;
       StateRuntimeVersionResponse.Apis := Some [("0x00", 9)] |}
  = ([CallGetRuntimeVersion None],
     Some ({| StateRuntimeVersionResponse.SpecName := "node";
              StateRuntimeVersionResponse.ImplName := "gossamer";
              StateRuntimeVersionResponse.AuthoringVersion := 1;
              StateRuntimeVersionResponse.SpecVersion := 2;
              StateRuntimeVersionResponse.ImplVersion := 3;
              StateRuntimeVersionResponse.Apis := Some [("0xdf6a", 1)] |},
           None)).
Proof.
  exact (X3_GetRuntimeVersion_fills_the_response Sample.sm None Sample.latest
           [{| runtime.Name := Some [xdf; x6a]; runtime.Ver := 1 |}] _
           eq_refl eq_refl).
Defined.

Lemma X4_witness :
  GetStorage (common := model_common) Sample.sm
    (Some {| StateStorageRequest.Key := "0x6b31";
             StateStorageRequest.Bhash := None |})
    {| StateStorageResponse.StorageValue := "0x00" |}
  = ([CallGetStorage None (Some ["k"%byte; "1"%byte])],
     Some ({| StateStorageResponse.StorageValue := "0x0102030405" |}, None)).
Proof.
  apply (X4_GetStorage_returns_the_value (common := model_common) Sample.sm
           "0x6b31" None (Some [x01; x02; x03; x04; x05])).
  - vm_compute. reflexivity.
  - reflexivity.
Defined.

Lemma X5_witness :
  outcome (GetStorageSize (common := model_common) Sample.sm
             (Some {| StateStorageSizeRequest.Key := "0x6b33";
                      StateStorageSizeRequest.Bhash := Some Sample.block1 |})
             {| StateStorageSizeResponse.StorageEntrySize := 7 |})
  = Some ({| StateStorageSizeResponse.StorageEntrySize := 0 |}, None).
Proof.
  apply (X5_GetStorageSize_is_the_length (common := model_common) Sample.sm
           "0x6b33" (Some Sample.block1) None).
  - vm_compute. reflexivity.
  - vm_compute. discriminate.
Defined.

Lemma X6_witness :
  GetStorage (common := model_common) Sample.sm
    (Some {| StateStorageRequest.Key := "0x6b31";
             StateStorageRequest.Bhash := Some Sample.block1 |})
    {| StateStorageResponse.StorageValue := "0x00" |}
  = GetStorage (common := model_common) Sample.sm
      (Some {| StateStorageRequest.Key := "0x6b31";
               StateStorageRequest.Bhash := Some Sample.block1 |})
      StateStorageResponse.zero.
Proof.
  refine (proj1 (X6_reads_overwrite_the_response (common := model_common)
                   Sample.sm "0x6b31" (Some Sample.block1) _ _
                   StateStorageHashResponse.zero StateStorageHashResponse.zero
                   StateStorageSizeResponse.zero StateStorageSizeResponse.zero
                   _)).
  vm_compute. reflexivity.
Defined.

Lemma X7_witness :
  GetStorage (common := model_common) sm_unavailable
    (Some {| StateStorageRequest.Key := "0x6b31";
             StateStorageRequest.Bhash := None |})
    {| StateStorageResponse.StorageValue := "0x00" |}
  = ([CallGetStorage None (Some ["k"%byte; "1"%byte])],
     Some ({| StateStorageResponse.StorageValue := "0x00" |},
           Some StorageUnavailable)).
Proof.
  refine (proj1 (X7_read_errors_are_returned (common := model_common)
                   sm_unavailable "0x6b31" None StorageUnavailable _
                   StateStorageHashResponse.zero StateStorageSizeResponse.zero
                   _)).
  reflexivity.
Defined.

Lemma X8_witness :
  GetPairs (common := model_common) (maprange := Model.maprange) Sample.sm
    (Some {| StatePairRequest.Prefix := "0x6b31";
             StatePairRequest.Bhash := Some Sample.block1 |})
    {| StatePairResponse.keys := Some [["0x00"; "0x00"]] |}
  = ([CallGetStateRootFromBlock Sample.block1;
      CallGetStorage (Some Sample.root1) (Some ["k"%byte; "1"%byte])],
     Some ({| StatePairResponse.keys :=
                Some [["0x00"; "0x00"]; ["0x6b31"; "0x0102030405"]] |}, None)).
Proof.
  apply (X8_GetPairs_exact_key_found (common := model_common)
           (maprange := Model.maprange) Sample.sm "0x6b31"
           (Some Sample.block1) (Some Sample.root1)
           [x01; x02; x03; x04; x05]).
  - vm_compute. discriminate.
  - reflexivity.
  - vm_compute. reflexivity.
Defined.

Lemma X9_witness :
  GetPairs (common := model_common) (maprange := Model.maprange)
    sm_unavailable
    (Some {| StatePairRequest.Prefix := EmptyString;
             StatePairRequest.Bhash := Some Sample.block1 |})
    StatePairResponse.zero
  = ([CallGetStateRootFromBlock Sample.block1;
      CallEntries (Some Sample.root1)],
     Some (StatePairResponse.zero, Some StorageUnavailable))
  /\ GetPairs (common := model_common) (maprange := Model.maprange)
       sm_unavailable
       (Some {| StatePairRequest.Prefix := "0x6b31";
                StatePairRequest.Bhash := Some Sample.block1 |})
       StatePairResponse.zero
  = ([CallGetStateRootFromBlock Sample.block1;
      CallGetStorage (Some Sample.root1) (Some ["k"%byte; "1"%byte])],
     Some (StatePairResponse.zero, Some StorageUnavailable)).
Proof.
  pose proof (X9_GetPairs_lookup_errors_are_returned (common := model_common)
                (maprange := Model.maprange) sm_unavailable EmptyString
                "0x6b31" (Some Sample.block1) (Some Sample.root1)
                StorageUnavailable StorageUnavailable StatePairResponse.zero)
    as H.
  cbv zeta in H. destruct H as [HA HK]. split.
  - apply HA.
    + vm_compute. reflexivity.
    + reflexivity.
    + reflexivity.
  - apply HK.
    + vm_compute. discriminate.
    + reflexivity.
    + reflexivity.
Defined.

Lemma X12_witness :
  trace (GetPairs (common := model_common) (maprange := Model.maprange)
           Sample.sm
           (Some {| StatePairRequest.Prefix := "0x6b31";
                    StatePairRequest.Bhash := None |})
           StatePairResponse.zero)
  = trace (GetStorage (common := model_common) Sample.sm
             (Some {| StateStorageRequest.Key := "0x6b31";
                      StateStorageRequest.Bhash := None |})
             StateStorageResponse.zero).
Proof.
  destruct (X12_GetPairs_and_GetStorage_read_alike (common := model_common)
              (maprange := Model.maprange) Sample.sm "0x6b31" Sample.block1
              StatePairResponse.zero StateStorageResponse.zero)
    as [H1 [H2 _]].
  - vm_compute. discriminate.
  - rewrite H1, H2. reflexivity.
Defined.

Lemma X14_witness :
  exists res' : StatePairResponse.t,
    outcome (GetPairs (common := model_common) (maprange := Model.maprange)
               Sample.sm
               (Some {| StatePairRequest.Prefix := "0x";
                        StatePairRequest.Bhash := None |})
               StatePairResponse.zero)
      = Some (res', None)
    /\ length (elems (StatePairResponse.keys res')) = 2%nat
    /\ List.NoDup (map entry_key (elems (StatePairResponse.keys res'))).
Proof.
  destruct (X14_GetPairs_enumeration_has_distinct_keys
              (common := model_common) (maprange := Model.maprange)
              Sample.sm "0x" None None Sample.store)
    as [res' [Hout [Hlen [_ Hnd]]]].
  - vm_compute. reflexivity.
  - reflexivity.
  - reflexivity.
  - exists res'. split; [exact Hout|]. split; [|exact Hnd].
    rewrite Hlen. vm_compute. reflexivity.
Defined.

(** The reads on a nil response pointer, on the sample modules: a read that
    finds a value panics after its call, a read that fails returns the
    error, and the enumeration of an empty store returns without a panic. *)
Example Ptr_nil_response_sample :
  Ptr.GetStorage (common := model_common) Sample.sm
    (Some {| StateStorageRequest.Key := "0x6b31";
             StateStorageRequest.Bhash := None |}) None
  = ([CallGetStorage None (Some ["k"%byte; "1"%byte])], None)
  /\ Ptr.GetStorage (common := model_common) sm_unavailable
       (Some {| StateStorageRequest.Key := "0x6b31";
                StateStorageRequest.Bhash := None |}) None
     = ([CallGetStorage None (Some ["k"%byte; "1"%byte])],
        Some (None, Some StorageUnavailable))
  /\ Ptr.GetPairs (common := model_common) (maprange := Model.maprange)
       (NewStateModule tt (Model.storage [] ∅) Model.core_down)
       (Some {| StatePairRequest.Prefix := "0x";
                StatePairRequest.Bhash := None |}) None
     = ([CallEntries None], Some (None, None)).
Proof. repeat split. Qed.
